(** * FrillsLocal: the "0 Filterer" (full_local_main.py)

    A shallow embedding of the logic of [FiltererApp]: the DNO ("do not
    order") store kept in the SQLite file [dno.db], the inventory table
    held in a pandas DataFrame, and the zero / low classification.

    What is modelled and how:
    - a spreadsheet cell is a Python value: an [int], a finite [float]
      (as the rational number it denotes), a [str], or the missing value
      NaN that pandas puts in an empty cell;
    - text is ASCII text (character codes 0 to 127);
    - a DataFrame is the list of its rows, top to bottom; a column
      operation is the operation applied to every row;
    - the file [dno.db] is absent, or a database without the table [dno],
      or the rows of the table [dno (article TEXT UNIQUE)] in insertion
      order: it is a file that this program made, and so is a [.db] file
      that is imported; a file of another origin (another schema, a row
      without text, no database at all) is outside the model, and so are
      the failures of sqlite3 other than the missing table;
    - a sheet of the inventory is one that [pd.read_excel] has read, with
      the five columns that the program names, [Department] first;
    - a Python [set] is a list without equal elements;
    - every button handler takes the application state and the disk and
      gives back both, with the alerts it has shown; an exception that
      leaves the handler is an outcome of its own.
    Values are exact: the conversions between column types that pandas
    makes behind the scenes (an [int] column that becomes a [float]
    column when a cell is empty) do not change the number a cell denotes
    and are not modelled.
    The SAP replay ([send_to_SAP]) is modelled by the input events it
    asks [pyautogui] and [time] for, in order.  The Tk widgets and the
    session log are outside the model. *)

From Stdlib Require Import ZArith QArith List String Ascii Bool Lia Permutation.
From Stdlib Require Import DecimalString DecimalZ.
Import ListNotations.

Open Scope string_scope.
Open Scope list_scope.
Open Scope Z_scope.

(* ------------------------------------------------------------------ *)
(** ** Python values and the built-ins the program uses                *)
(* ------------------------------------------------------------------ *)

Module Py.

(** A cell value as pandas hands it to Python code. *)
Inductive value : Type :=
| VInt (z : Z)
| VFloat (q : Q)
| VStr (s : string)
| VNaN.

(** Exceptions the modelled code can raise. *)
Inductive exn : Type :=
| AttributeError   (* [cat.startswith] on a value that is not a [str] *)
| TypeError        (* an order comparison between [str] and [int]     *)
| ValueError (msg : string)  (* [int(x)] on text or NaN that is no integer *)
| OperationalError (msg : string)  (* sqlite3: a statement failed      *)
| OSError (msg : string).          (* shutil.copyfile failed           *)

(** [str(e)] for the exceptions that the handlers catch and show. *)
Definition exn_text (e : exn) : string :=
  match e with
  | ValueError m | OperationalError m | OSError m => m
  | AttributeError | TypeError => ""
  end.

(** [str(n)] for an [int].  A cell that pandas reads from a sheet is a
    64-bit integer or a double, so that [str] never meets its limit of
    4300 digits on the numbers of the program. *)
Definition str_of_int (z : Z) : string := NilZero.string_of_int (Z.to_int z).

(** [int(x)] for a finite [float]: truncation towards zero. *)
Definition int_of_float (q : Q) : Z := Z.quot (Qnum q) (Z.pos (Qden q)).

(** [c.isspace()] on ASCII: tab, newline, vertical tab, form feed,
    carriage return, the four separators 0x1c..0x1f, and the space. *)
Definition isspace (c : ascii) : bool :=
  let n := Z.of_nat (nat_of_ascii c) in
  ((9 <=? n) && (n <=? 13)) || ((28 <=? n) && (n <=? 32)).

Fixpoint lstrip (s : string) : string :=
  match s with
  | String c rest => if isspace c then lstrip rest else s
  | EmptyString => EmptyString
  end.

Fixpoint rstrip (s : string) : string :=
  match s with
  | String c rest =>
      match rstrip rest with
      | EmptyString => if isspace c then EmptyString else String c EmptyString
      | t => String c t
      end
  | EmptyString => EmptyString
  end.

(** [s.strip()] *)
Definition strip (s : string) : string := rstrip (lstrip s).

Definition digit (c : ascii) : option Z :=
  let n := Z.of_nat (nat_of_ascii c) in
  if (48 <=? n) && (n <=? 57) then Some (n - 48) else None.

(** Digits with single underscores between them; [seen] tells whether
    the previous character was a digit. *)
Fixpoint digits (s : string) (acc : Z) (seen : bool) : option Z :=
  match s with
  | EmptyString => if seen then Some acc else None
  | String c rest =>
      if Ascii.eqb c "_"
      then if seen then digits rest acc false else None
      else match digit c with
           | Some d => digits rest (10 * acc + d) true
           | None => None
           end
  end.

(** The white space that [int()] skips around an ASCII text: tab,
    newline, vertical tab, form feed, carriage return and the space.  The
    separators 0x1c..0x1f, which [str.strip] drops, are not among it. *)
Definition int_isspace (c : ascii) : bool :=
  let n := Z.of_nat (nat_of_ascii c) in
  ((9 <=? n) && (n <=? 13)) || (n =? 32).

Fixpoint int_lstrip (s : string) : string :=
  match s with
  | String c rest => if int_isspace c then int_lstrip rest else s
  | EmptyString => EmptyString
  end.

Fixpoint int_rstrip (s : string) : string :=
  match s with
  | String c rest =>
      match int_rstrip rest with
      | EmptyString => if int_isspace c then EmptyString else String c EmptyString
      | t => String c t
      end
  | EmptyString => EmptyString
  end.

(** The number of digit characters of a text. *)
Fixpoint count_digits (s : string) : Z :=
  match s with
  | EmptyString => 0
  | String c rest =>
      match digit c with
      | Some _ => 1 + count_digits rest
      | None => count_digits rest
      end
  end.

(** [sys.get_int_max_str_digits()], at its default: [int()] refuses a
    text with more digits. *)
Definition int_max_str_digits : Z := 4300.

Definition bounded_digits (s : string) : option Z :=
  if count_digits s <=? int_max_str_digits then digits s 0 false else None.

(** The integer literal a text denotes, if any: the white space of
    [int()] around it is dropped, one sign is allowed, then digits, no
    more than the limit. *)
Definition int_literal (s : string) : option Z :=
  match int_rstrip (int_lstrip s) with
  | String "+" rest => bounded_digits rest
  | String "-" rest => option_map Z.opp (bounded_digits rest)
  | t => bounded_digits t
  end.

(** [int(text)] in base 10.  Every refusal is a [ValueError]; its message
    is worded here as Python words it for a text of plain letters and
    digits, and the statements below do not rest on the wording. *)
Definition int_of_str (s : string) : exn + value :=
  match int_literal s with
  | Some z => inr (VInt z)
  | None => inl (ValueError ("invalid literal for int() with base 10: '" ++ s ++ "'")%string)
  end.

(** A loop or comprehension over [xs] whose body may raise: the first
    exception ends it. *)
Fixpoint traverse {A B : Type} (f : A -> exn + B) (xs : list A) : exn + list B :=
  match xs with
  | [] => inr []
  | x :: rest =>
      match f x with
      | inl e => inl e
      | inr y =>
          match traverse f rest with
          | inl e => inl e
          | inr ys => inr (y :: ys)
          end
      end
  end.

(** The number a numeric value denotes. *)
Definition number (v : value) : option Q :=
  match v with
  | VInt z => Some (inject_Z z)
  | VFloat q => Some q
  | _ => None
  end.

(** [v == w] *)
Definition eqb (v w : value) : bool :=
  match v, w with
  | VStr a, VStr b => String.eqb a b
  | _, _ =>
      match number v, number w with
      | Some p, Some q => Qeq_bool p q
      | _, _ => false
      end
  end.

(** [v <= n] and [v > n] against an [int] literal.  NaN compares false
    both ways; text against a number raises [TypeError]. *)
Definition le_int (v : value) (n : Z) : exn + bool :=
  match v with
  | VInt z => inr (z <=? n)
  | VFloat q => inr (Qle_bool q (inject_Z n))
  | VNaN => inr false
  | VStr _ => inl TypeError
  end.

Definition gt_int (v : value) (n : Z) : exn + bool :=
  match v with
  | VInt z => inr (n <? z)
  | VFloat q => inr (negb (Qle_bool q (inject_Z n)))
  | VNaN => inr false
  | VStr _ => inl TypeError
  end.

(** [cat.startswith(bad)] *)
Definition startswith (cat : value) (bad : string) : exn + bool :=
  match cat with
  | VStr s => inr (String.prefix bad s)
  | _ => inl AttributeError
  end.

(** [x in xs] for a list. *)
Definition contains (xs : list value) (x : value) : bool :=
  existsb (eqb x) xs.

(** [s.add(x)] for a set. *)
Definition set_add (s : list value) (x : value) : list value :=
  if contains s x then s else s ++ [x].

(** The newline of a format string. *)
Definition nl : string := String (ascii_of_nat 10) EmptyString.

End Py.

Import Py.

(* ------------------------------------------------------------------ *)
(** ** pandas: a DataFrame as the list of its rows                     *)
(* ------------------------------------------------------------------ *)

(** A row of the inventory table, with the five columns the program
    keeps. *)
Record row : Type := Row {
  Department : value;
  Merchandise_Category : value;
  Article_Description : value;
  Article : value;
  Inventory : value
}.

Module Pd.

Definition frame : Type := list row.

(** [df.empty] *)
Definition empty (df : frame) : bool :=
  match df with
  | [] => true
  | _ :: _ => false
  end.

(** [df[name]] *)
Definition column {A : Type} (name : row -> A) (df : frame) : list A :=
  map name df.

(** [series.apply(f)] and the element-wise comparisons. *)
Definition apply {A B : Type} (f : A -> exn + B) (series : list A) : exn + list B :=
  traverse f series.

(** [df[mask]] for a boolean mask. *)
Fixpoint select (mask : list bool) (df : frame) : frame :=
  match mask, df with
  | b :: mask', r :: df' => if b then r :: select mask' df' else select mask' df'
  | _, _ => []
  end.

(** [~mask] *)
Definition invert (mask : list bool) : list bool := map negb mask.

(** [a & b] *)
Fixpoint both (a b : list bool) : list bool :=
  match a, b with
  | x :: a', y :: b' => (x && y) :: both a' b'
  | _, _ => []
  end.

(** [series.isin(values)] *)
Definition isin (series : list value) (values : list value) : list bool :=
  map (contains values) series.

(** [pd.concat([a, b], ignore_index=True)] *)
Definition concat (a b : frame) : frame := a ++ b.

(** Two cells are the same key for [drop_duplicates] when they are equal,
    or both missing. *)
Definition same_key (v w : value) : bool :=
  match v, w with
  | VNaN, VNaN => true
  | _, _ => Py.eqb v w
  end.

(** [df.drop_duplicates(subset=[name], keep="last", ignore_index=True)]:
    a row stays when no later row has the same key. *)
Fixpoint drop_duplicates_last (name : row -> value) (df : frame) : frame :=
  match df with
  | [] => []
  | r :: rest =>
      if existsb (fun r' => same_key (name r) (name r')) rest
      then drop_duplicates_last name rest
      else r :: drop_duplicates_last name rest
  end.

(** A workbook sheet of the DNO import: rows of cells, any width. *)
Definition sheet : Type := list (list value).

(** [pd.Series(df.iloc[:, :10].values.ravel()).dropna()] *)
Definition isna (v : value) : bool :=
  match v with
  | VNaN => true
  | _ => false
  end.

Definition first_ten_values (df : sheet) : list value :=
  filter (fun v => negb (isna v)) (List.concat (map (firstn 10) df)).

End Pd.

(* ------------------------------------------------------------------ *)
(** ** sqlite3: the file dno.db                                        *)
(* ------------------------------------------------------------------ *)

Module Sqlite.

(** A database file of this program: every statement that creates the
    table creates it as [dno (article TEXT UNIQUE)], and every row is
    inserted as text. *)
Inductive file : Type :=
| Absent                              (* no such file                  *)
| NoTable                             (* a database without table dno  *)
| Table (articles : list string).     (* the rows of dno, oldest first *)

(** [os.path.exists(path)] *)
Definition exists_ (f : file) : bool :=
  match f with
  | Absent => false
  | _ => true
  end.

(** [sqlite3.connect(path)] creates the file when it is missing. *)
Definition connect (f : file) : file :=
  match f with
  | Absent => NoTable
  | _ => f
  end.

(** [CREATE TABLE IF NOT EXISTS dno (article TEXT UNIQUE)] *)
Definition create_table (f : file) : file :=
  match f with
  | Table _ => f
  | _ => Table []
  end.

(** The rows of table dno; none when the file or the table is missing. *)
Definition rows (f : file) : list string :=
  match f with
  | Table articles => articles
  | _ => []
  end.

Definition no_such_table : exn := OperationalError "no such table: dno".

(** [SELECT article FROM dno] *)
Definition select_articles (f : file) : exn + list string :=
  match f with
  | Table articles => inr articles
  | _ => inl no_such_table
  end.

(** [SELECT COUNT( * ) FROM dno] *)
Definition count (f : file) : exn + Z :=
  match f with
  | Table articles => inr (Z.of_nat (List.length articles))
  | _ => inl no_such_table
  end.

(** [INSERT OR IGNORE INTO dno (article) VALUES (?)] *)
Definition insert_or_ignore (article : string) (f : file) : exn + file :=
  match f with
  | Table articles =>
      inr (Table (if existsb (String.eqb article) articles
                  then articles
                  else articles ++ [article]))
  | _ => inl no_such_table
  end.

(** [DELETE FROM dno WHERE article = ?], with [cur.rowcount]. *)
Definition delete (article : string) (f : file) : exn + (file * Z) :=
  match f with
  | Table articles =>
      let kept := filter (fun a => negb (String.eqb a article)) articles in
      inr (Table kept, Z.of_nat (List.length articles) - Z.of_nat (List.length kept))
  | _ => inl no_such_table
  end.

End Sqlite.

(* ------------------------------------------------------------------ *)
(** ** The application                                                 *)
(* ------------------------------------------------------------------ *)

(** Sequencing of steps that may raise. *)
Notation "x <- e ;; k" :=
  (match e with
   | inl err => inl err
   | inr x => k
   end)
  (at level 61, e at next level, right associativity, only parsing).

(** The fields of [FiltererApp] that the handlers read or write. *)
Record FiltererApp : Type := App {
  df_inventory : Pd.frame;
  filtered_zeros : list value;
  filtered_lows : list value;
  zero_count : Z;
  new_found_dnos : Z;
  lights_bool : list (string * bool)
}.

(** The destination of an export: [Path.home() / "Downloads" / "dno.db"]. *)
Inductive target : Type :=
| Unwritable (why : string)       (* copying there raises this error *)
| Holds (f : Sqlite.file).        (* what is there now               *)

(** The files the program touches. *)
Record disk : Type := Disk {
  dno_db : Sqlite.file;           (* "dno.db" in the working directory *)
  dst : target;
  dst_text : string               (* [str(dst)]                        *)
}.

Inductive alert : Type := Alert (title message : string).

(** What a handler leaves behind. *)
Record world : Type := World {
  self : FiltererApp;
  files : disk;
  shown : list alert
}.

Inductive outcome : Type :=
| Returns (w : world)
| Raises (e : exn) (w : world).

Definition departments : list (string * list string) :=
  [ ("Grocery", ["Grocery"]);
    ("Meat", ["Meat"; "Deli"]);
    ("Bakery", ["Bakery Commercial"; "Bakery Instore"]);
    ("Dairy/Frozen", ["Bulk"]);
    ("Seafood", ["Seafood"]);
    ("HMR", ["HMR"]);
    ("Produce", ["Produce"]);
    ("Home", ["Home"; "Entertainment"]) ].

Definition BANNED_CATS : list string :=
  [ "Nuts/ Dried Fruit"; "Fresh-"; "Field Veg"; "Root Veg"; "Salad Veg";
    "Cooking Veg"; "Peppers"; "Tomatoes";
    "Lamb"; "Sausage"; "Hams";
    "Books-"; "Magazines"; "Newspapers" ].

Definition LOW_THRESHOLD : Z := 2.

(** [__init__] *)
Definition init : FiltererApp :=
  {| df_inventory := [];
     filtered_zeros := [];
     filtered_lows := [];
     zero_count := 0;
     new_found_dnos := 0;
     lights_bool := map (fun dep => (fst dep, false)) departments |}.

Definition with_df_inventory (a : FiltererApp) (df : Pd.frame) : FiltererApp :=
  App df (filtered_zeros a) (filtered_lows a) (zero_count a) (new_found_dnos a) (lights_bool a).

Definition with_zeros (a : FiltererApp) (zeros : list value) (n : Z) : FiltererApp :=
  App (df_inventory a) zeros (filtered_lows a) n (new_found_dnos a) (lights_bool a).

Definition with_lows (a : FiltererApp) (lows : list value) : FiltererApp :=
  App (df_inventory a) (filtered_zeros a) lows (zero_count a) (new_found_dnos a) (lights_bool a).

Definition with_new_found_dnos (a : FiltererApp) (n : Z) : FiltererApp :=
  App (df_inventory a) (filtered_zeros a) (filtered_lows a) (zero_count a) n (lights_bool a).

Definition with_lights_bool (a : FiltererApp) (l : list (string * bool)) : FiltererApp :=
  App (df_inventory a) (filtered_zeros a) (filtered_lows a) (zero_count a) (new_found_dnos a) l.

Definition with_dno_db (d : disk) (f : Sqlite.file) : disk :=
  Disk f (dst d) (dst_text d).

Definition with_dst (d : disk) (t : target) : disk :=
  Disk (dno_db d) t (dst_text d).

(* ------------------------ DNO DB Methods ------------------------ *)

(** [fetch_dno_articles]: the result and the file as it is afterwards.
    The rows are texts, so that [int(r[0])] either gives an integer or
    raises [ValueError]. *)
Definition fetch_dno_articles (db : Sqlite.file) : (exn + list value) * Sqlite.file :=
  if negb (Sqlite.exists_ db) then (inr [], db)
  else
    let conn := Sqlite.create_table (Sqlite.connect db) in
    (rows <- Sqlite.select_articles conn ;;
     traverse int_of_str rows,
     conn).

(** What the file dialog of [import_dno] gives: nothing, a [.db] file, or
    a workbook, read by [pd.read_excel] into its sheets or not at all.
    A [.db] file is a store that this program wrote (an exported dno.db):
    its table is [dno (article TEXT UNIQUE)].  [shutil.copyfile] either
    copies it over dno.db, or it raises before it writes: the file picked
    is dno.db itself ([SameFileError]), it cannot be read, or dno.db cannot
    be written. *)
Inductive dno_source : Type :=
| NoSelection
| DbFile (content : Sqlite.file)
| Workbook (xls : exn + list Pd.sheet)
| DbFileUncopied (why : string).

(** The body of the loop over [all_values]. *)
Definition article_text (item : value) : exn + string :=
  match item with
  | VInt z => inr (str_of_int z)
  | VFloat q => inr (str_of_int (int_of_float q))
  | VNaN => inl (ValueError "cannot convert float NaN to integer")
  | VStr s => inr s
  end.

Fixpoint insert_each (all_values : list value) (conn : Sqlite.file) : exn + Sqlite.file :=
  match all_values with
  | [] => inr conn
  | item :: rest =>
      text <- article_text item ;;
      conn' <- Sqlite.insert_or_ignore text conn ;;
      insert_each rest conn'
  end.

Definition import_dno (app : FiltererApp) (d : disk) (picked : dno_source) : outcome :=
  match picked with
  | NoSelection => Returns (World app d [Alert "Error" "No file selected."])
  | DbFile content =>
      Returns (World app (with_dno_db d content) [Alert "Success" "dno.db replaced."])
  | DbFileUncopied why => Raises (OSError why) (World app d [])
  | Workbook (inl e) =>
      Returns (World app d
        [Alert "Error" ("An error occurred importing DNO:" ++ nl ++ exn_text e)%string])
  | Workbook (inr xls) =>
      let all_values := flat_map Pd.first_ten_values xls in
      let conn := Sqlite.create_table (Sqlite.connect (dno_db d)) in
      match (existing_count <- Sqlite.count conn ;;
             conn' <- insert_each all_values conn ;;
             new_count <- Sqlite.count conn' ;;
             inr (conn', new_count - existing_count)) with
      | inl e =>
          Returns (World app (with_dno_db d conn)
            [Alert "Error" ("An error occurred importing DNO:" ++ nl ++ exn_text e)%string])
      | inr (conn', diff) =>
          if 0 <? diff
          then Returns (World (with_new_found_dnos app (new_found_dnos app + diff))
                 (with_dno_db d conn')
                 [Alert "" ("Imported " ++ str_of_int diff ++ " new DNO articles.")%string])
          else Returns (World app (with_dno_db d conn')
                 [Alert "" "No new DNO articles or all duplicates."])
      end
  end.

Definition export_dno (app : FiltererApp) (d : disk) : outcome :=
  if negb (Sqlite.exists_ (dno_db d))
  then Returns (World app d [Alert "Error" "No local dno.db found to export."])
  else
    match dst d with
    | Holds _ =>
        Returns (World app (with_dst d (Holds (dno_db d)))
          [Alert "Success" ("dno.db exported to:" ++ nl ++ dst_text d)%string])
    | Unwritable why =>
        Returns (World app d
          [Alert "Error" ("Unable to export dno.db: " ++ exn_text (OSError why))%string])
    end.

(** [add_new_DNO], with the text of the entry box and the answer to the
    confirmation dialog. *)
Definition add_new_DNO (app : FiltererApp) (d : disk) (entry : string) (confirm : bool) : outcome :=
  let article := strip entry in
  if String.eqb article "" then Returns (World app d [])
  else if confirm then
    let conn := Sqlite.connect (dno_db d) in
    match (conn' <- Sqlite.insert_or_ignore article (Sqlite.create_table conn) ;;
           inr conn') with
    | inr conn' =>
        Returns (World (with_new_found_dnos app (new_found_dnos app + 1))
          (with_dno_db d conn')
          [Alert "Inserted" ("Article " ++ article ++ " added to DNO.")%string])
    | inl e => Returns (World app (with_dno_db d conn) [Alert "Error" (exn_text e)])
    end
  else Returns (World app d []).

(** [remove_from_DNO], with the same two inputs. *)
Definition remove_from_DNO (app : FiltererApp) (d : disk) (entry : string) (confirm : bool) : outcome :=
  let article := strip entry in
  if String.eqb article "" then Returns (World app d [])
  else if confirm then
    let conn := Sqlite.connect (dno_db d) in
    match Sqlite.delete article conn with
    | inr (conn', rowcount) =>
        if 0 <? rowcount
        then Returns (World (with_new_found_dnos app (new_found_dnos app + 1))
               (with_dno_db d conn')
               [Alert "Success" ("Article " ++ article ++ " removed from DNO.")%string])
        else Returns (World app (with_dno_db d conn')
               [Alert "Not Found" ("Article " ++ article ++ " was not in DNO.")%string])
    | inl e => Returns (World app (with_dno_db d conn) [Alert "Error" (exn_text e)])
    end
  else Returns (World app d []).

(* ---------------- Inventory in Memory (pandas) ------------------ *)

(** The department group a first-column value belongs to: the first
    [outer_key] whose [inner_values] contain it. *)
Fixpoint group_of (dep : value) (items : list (string * list string)) : option string :=
  match items with
  | [] => None
  | (outer_key, inner_values) :: rest =>
      if contains (map VStr inner_values) dep then Some outer_key
      else group_of dep rest
  end.

Definition light_up (lights : list (string * bool)) (dep : value) : list (string * bool) :=
  match group_of dep departments with
  | Some outer_key =>
      map (fun l => if String.eqb (fst l) outer_key then (fst l, true) else l) lights
  | None => lights
  end.

(** [is_banned(cat)]: [any(cat.startswith(bad) for bad in BANNED_CATS)]. *)
Fixpoint any_startswith (cat : value) (bads : list string) : exn + bool :=
  match bads with
  | [] => inr false
  | bad :: rest =>
      hit <- startswith cat bad ;;
      if hit then inr true else any_startswith cat rest
  end.

Definition is_banned (cat : value) : exn + bool := any_startswith cat BANNED_CATS.

(** [upload_excel], with what the file dialog and [pd.read_excel] give:
    nothing, or the rows of the sheet, whose columns are the five that the
    program assumes, [Department] first. *)
Definition upload_excel (app : FiltererApp) (d : disk) (picked : option Pd.frame) : outcome :=
  match picked with
  | None => Returns (World app d [])
  | Some new_df =>
      let departments_in_file := Pd.column Department new_df in
      let app := with_lights_bool app (fold_left light_up departments_in_file (lights_bool app)) in
      match Pd.apply is_banned (Pd.column Merchandise_Category new_df) with
      | inl e => Raises e (World app d [])
      | inr banned =>
          let new_df := Pd.select (Pd.invert banned) new_df in
          let df :=
            if Pd.empty (df_inventory app) then new_df
            else Pd.concat (df_inventory app) new_df in
          Returns (World (with_df_inventory app (Pd.drop_duplicates_last Article df)) d [])
      end
  end.

Definition find_zeros (app : FiltererApp) (d : disk) : outcome :=
  if Pd.empty (df_inventory app)
  then Returns (World app d [Alert "No Data" "Please upload Excel first."])
  else
    match Pd.apply (fun v => le_int v 0) (Pd.column Inventory (df_inventory app)) with
    | inl e => Raises e (World app d [])
    | inr mask =>
        let zero_df := Pd.select mask (df_inventory app) in
        let (fetched, conn) := fetch_dno_articles (dno_db d) in
        let d := with_dno_db d conn in
        match fetched with
        | inl e => Raises e (World app d [])
        | inr dno_set =>
            let zero_df :=
              Pd.select (Pd.invert (Pd.isin (Pd.column Article zero_df) dno_set)) zero_df in
            let zeros := fold_left set_add (Pd.column Article zero_df) (filtered_zeros app) in
            let count := Z.of_nat (List.length zeros) in
            Returns (World (with_zeros app zeros count) d
              [Alert "Success"
                 ("Found " ++ str_of_int count ++ " Zeros." ++ nl ++ "Ready to send to SAP.")%string])
        end
    end.

Definition find_lows (app : FiltererApp) (d : disk) : outcome :=
  if Pd.empty (df_inventory app)
  then Returns (World app d [Alert "No Data" "Please upload Excel first."])
  else
    let inventory := Pd.column Inventory (df_inventory app) in
    match (above <- Pd.apply (fun v => gt_int v 0) inventory ;;
           below <- Pd.apply (fun v => le_int v LOW_THRESHOLD) inventory ;;
           inr (Pd.both above below)) with
    | inl e => Raises e (World app d [])
    | inr mask =>
        let low_df := Pd.select mask (df_inventory app) in
        let lows := fold_left set_add (Pd.column Article low_df) (filtered_lows app) in
        Returns (World (with_lows app lows) d
          [Alert "Success" ("Found " ++ str_of_int (Z.of_nat (List.length lows)) ++ " Lows")%string])
    end.

(** A session: the handlers the user triggers, one after the other.  An
    exception that leaves a handler is reported by Tk and the session goes
    on with the state the handler had reached. *)
Inductive action : Type :=
| DoImport (picked : dno_source)
| DoExport
| DoAdd (entry : string) (confirm : bool)
| DoRemove (entry : string) (confirm : bool)
| DoUpload (picked : option Pd.frame)
| DoFindZeros
| DoFindLows.

Definition handle (a : action) (app : FiltererApp) (d : disk) : outcome :=
  match a with
  | DoImport picked => import_dno app d picked
  | DoExport => export_dno app d
  | DoAdd entry confirm => add_new_DNO app d entry confirm
  | DoRemove entry confirm => remove_from_DNO app d entry confirm
  | DoUpload picked => upload_excel app d picked
  | DoFindZeros => find_zeros app d
  | DoFindLows => find_lows app d
  end.

Definition after (o : outcome) : world :=
  match o with
  | Returns w => w
  | Raises _ w => w
  end.

Fixpoint session (actions : list action) (app : FiltererApp) (d : disk) : FiltererApp * disk :=
  match actions with
  | [] => (app, d)
  | a :: rest =>
      let w := after (handle a app d) in
      session rest (self w) (files w)
  end.

(* ------------------------------------------------------------------ *)
(** ** Vocabulary of the statements                                    *)
(* ------------------------------------------------------------------ *)

(** A test that came out true, without raising. *)
Definition holds (x : exn + bool) : bool :=
  match x with
  | inr b => b
  | inl _ => false
  end.


Definition is_str (v : value) : bool :=
  match v with
  | VStr _ => true
  | _ => false
  end.

(** An inventory count that can be compared with a number. *)
Definition numeric (v : value) : bool := negb (is_str v).

(** [x] is in the set [s], as the object added or as an equal value. *)
Definition member (s : list value) (x : value) : Prop :=
  In x s \/ contains s x = true.

(** The rows [find_zeros] keeps, given the integers read from the DNO
    store: the count is at most 0 and the article equals none of them. *)
Definition zero_row (dno_set : list value) (r : row) : bool :=
  holds (le_int (Inventory r) 0) && negb (contains dno_set (Article r)).

(** The rows [find_lows] keeps: 0 < count <= LOW_THRESHOLD. *)
Definition low_row (r : row) : bool :=
  holds (gt_int (Inventory r) 0) && holds (le_int (Inventory r) LOW_THRESHOLD).

(** The row of [df] that carries the key [a] furthest down. *)
Fixpoint last_with (a : value) (df : Pd.frame) : option row :=
  match df with
  | [] => None
  | r :: rest =>
      match last_with a rest with
      | Some r' => Some r'
      | None => if Pd.same_key a (Article r) then Some r else None
      end
  end.

(** The text under which [import_dno] stores a cell that is not missing. *)
Definition identifier (item : value) : string :=
  match article_text item with
  | inr text => text
  | inl _ => ""
  end.

(** The rows of an upload that the banned-category filter lets through. *)
Definition allowed (r : row) : bool := negb (holds (is_banned (Merchandise_Category r))).

(* ------------------------------------------------------------------ *)
(** ** Sample data                                                     *)
(* ------------------------------------------------------------------ *)

Module Sample.

Definition some_disk (db : Sqlite.file) : disk :=
  Disk db (Holds Sqlite.Absent) "/home/clerk/Downloads/dno.db".

(** Three articles counted 0, 2 and 5, with numbers in the Article
    column. *)
Definition apple : row := Row (VStr "Grocery") (VStr "Produce") (VStr "Apple") (VInt 1001) (VInt 0).
Definition pear : row := Row (VStr "Grocery") (VStr "Produce") (VStr "Pear") (VInt 1002) (VInt 2).
Definition plum : row := Row (VStr "Grocery") (VStr "Produce") (VStr "Plum") (VInt 1003) (VInt 5).
Definition kiwi : row := Row (VStr "Grocery") (VStr "Produce") (VStr "Kiwi") (VInt 1004) (VInt 1).
Definition fig : row := Row (VStr "Grocery") (VStr "Produce") (VStr "Fig") (VInt 1005) (VInt (-3)).

(** The same three articles, with text in the Article column. *)
Definition apple_text : row := Row (VStr "Grocery") (VStr "Produce") (VStr "Apple") (VStr "1001") (VInt 0).
Definition pear_text : row := Row (VStr "Grocery") (VStr "Produce") (VStr "Pear") (VStr "1002") (VInt 2).
Definition plum_text : row := Row (VStr "Grocery") (VStr "Produce") (VStr "Plum") (VStr "1003") (VInt 5).

(** The apple counted again, a row of a banned category, and a row whose
    category cell is empty. *)
Definition apple_again : row := Row (VStr "Grocery") (VStr "Produce") (VStr "Apple") (VInt 1001) (VInt 7).
Definition lamb : row := Row (VStr "Meat") (VStr "Lamb-Ground") (VStr "Ground lamb") (VInt 2001) (VInt 0).
Definition blank : row := Row (VStr "Meat") VNaN (VStr "Unlabelled") (VInt 2002) (VInt 0).

Definition zero_stock : Pd.frame := [apple; pear; plum; fig].
Definition low_stock : Pd.frame := [apple; pear; plum; kiwi].
Definition text_stock : Pd.frame := [apple_text; pear_text; plum_text].

(** The application with an inventory table already loaded. *)
Definition loaded (df : Pd.frame) : FiltererApp := with_df_inventory init df.

(** A disk whose DNO store holds the given identifiers. *)
Definition dno (ids : list string) : disk := some_disk (Sqlite.Table ids).

(** A DNO workbook of one sheet and one row: the article 123 written
    three ways, a text, and an empty cell. *)
Definition workbook : list Pd.sheet :=
  [[[VInt 123; VFloat (123 # 1); VStr "123"; VStr "ABC"; VNaN]]].

End Sample.

(* ------------------------------------------------------------------ *)
(** ** The operations as the specification words them                  *)
(* ------------------------------------------------------------------ *)

Module Spec.

(** [findZeros(inventory, dnoMembers)]: the rows with inventoryCount <= 0
    whose article identifier is not in dnoMembers, identifiers being
    text. *)
Definition findZeros (inventory : Pd.frame) (dnoMembers : list string) : Pd.frame :=
  filter (fun r => holds (le_int (Inventory r) 0)
                   && negb (existsb (String.eqb (identifier (Article r))) dnoMembers))
         inventory.

End Spec.

(* ------------------------------------------------------------------ *)
(** ** Send to SAP (PyAutoGUI)                                         *)
(* ------------------------------------------------------------------ *)

(** What [pyautogui] and [time] are asked to do, in order. *)
Inductive input_event : Type :=
| Click (x y : Z)               (* pyautogui.click(x, y)  *)
| Write (text : string)         (* pyautogui.write(text)  *)
| Press (key : string)          (* pyautogui.press(key)   *)
| Sleep (milliseconds : Z).     (* time.sleep(seconds)    *)

(** What ends a replay early: an exception of the code, or Python's bound
    on the depth of recursion. *)
Inductive replay_error : Type :=
| Uncaught (e : exn)
| RecursionError.

Definition entryx : Z := 222.
Definition entryy : Z := 330.

(** [x.strip()] for an element of the list: only text has the method. *)
Definition strip_method (x : value) : exn + string :=
  match x with
  | VStr s => inr (strip s)
  | _ => inl AttributeError
  end.

(** The events of one line that is not empty. *)
Definition keystrokes (line : string) : list input_event :=
  [ Click entryx entryy; Click entryx entryy; Sleep 1020;
    Write line; Press "enter"; Sleep 500; Press "enter"; Sleep 500 ].

(** [process_lines(data_list)]: the events sent and what stopped the
    replay, if anything did.  The function calls itself once per element
    and once more for the empty list; [room] is the number of nested calls
    that Python's recursion limit still allows, the calls into
    [pyautogui] and [time] being taken to fit wherever [process_lines]
    itself has been entered. *)
Fixpoint process_lines (room : nat) (data_list : list value)
  : list input_event * option replay_error :=
  match room with
  | O => ([], Some RecursionError)
  | S room' =>
      match data_list with
      | [] => ([], None)
      | x :: rest =>
          match strip_method x with
          | inl e => ([], Some (Uncaught e))
          | inr line =>
              let sent := if String.eqb line "" then [] else keystrokes line in
              let (more, stopped) := process_lines room' rest in
              (sent ++ more, stopped)
          end
      end
  end.

(** [not s] for a set or a list. *)
Definition is_empty (s : list value) : bool :=
  match s with
  | [] => true
  | _ :: _ => false
  end.

(** What [send_to_SAP] leaves behind: the events, the alerts, and what
    left the handler, if anything did. *)
Record replay : Type := Replay {
  events : list input_event;
  told : list alert;
  stopped_by : option replay_error
}.

(** [send_to_SAP(mode)], with the answer to the confirmation dialog, the
    room for recursion, and [listed], what [list(self.filtered_lows)] or
    [list(self.filtered_zeros)] gives: the elements of the set, each once,
    in an order that Python does not promise.  The statements about a
    replay take [listed] to be such a listing of the set. *)
Definition send_to_SAP (app : FiltererApp) (mode : Z) (confirm : bool)
           (room : nat) (listed : list value) : replay :=
  if mode =? 1 then
    if is_empty (filtered_lows app)
    then Replay [] [Alert "No Lows" "No low articles to send."] None
    else if confirm then
      let (sent, stopped) := process_lines room listed in
      match stopped with
      | None =>
          Replay (Sleep 2000 :: sent)
                 [Alert "Done" "Low-inventory articles sent to SAP."] None
      | Some e => Replay (Sleep 2000 :: sent) [] (Some e)
      end
    else Replay [] [] None
  else
    if is_empty (filtered_zeros app)
    then Replay [] [Alert "No Zeros" "No zero articles to send."] None
    else if confirm then
      let (sent, stopped) := process_lines room listed in
      match stopped with
      | None =>
          Replay (Sleep 3000 :: sent)
                 [Alert "Done" "Zero-inventory articles sent to SAP."] None
      | Some e => Replay (Sleep 3000 :: sent) [] (Some e)
      end
    else Replay [] [] None.

(* ------------------------------------------------------------------ *)
(** ** Vocabulary of the further statements                            *)
(* ------------------------------------------------------------------ *)

(** A text that [int()] accepts. *)
Definition literal (text : string) : bool :=
  match int_literal text with
  | Some _ => true
  | None => false
  end.

(** A store that [fetch_dno_articles] can read: every identifier is an
    integer literal. *)
Definition readable (db : Sqlite.file) : bool :=
  forallb literal (Sqlite.rows db).

(** Whether the identifier [a] is in the store. *)
Definition stored (a : string) (db : Sqlite.file) : bool :=
  existsb (String.eqb a) (Sqlite.rows db).

(** A confirmed entry that names the article [a]. *)
Definition names (a entry : string) (confirm : bool) : bool :=
  confirm && negb (String.eqb (strip entry) "") && String.eqb (strip entry) a.

(** What one action does to the presence of the single identifier [a] in
    the store. *)
Definition presence (a : string) (act : action) (present : bool) : bool :=
  match act with
  | DoAdd entry confirm => if names a entry confirm then true else present
  | DoRemove entry confirm => if names a entry confirm then false else present
  | DoImport (DbFile content) => stored a content
  | DoImport (Workbook (inr xls)) =>
      present
      || existsb (fun item => String.eqb a (identifier item))
                 (flat_map Pd.first_ten_values xls)
  | _ => present
  end.

(** The texts that a list of events types. *)
Fixpoint written (sent : list input_event) : list string :=
  match sent with
  | [] => []
  | Write text :: rest => text :: written rest
  | _ :: rest => written rest
  end.

(** The lines that [process_lines] types for a list of texts. *)
Definition lines_of (texts : list string) : list string :=
  filter (fun line => negb (String.eqb line "")) (map strip texts).

(** The handlers of the DNO store, as against those of the inventory. *)
Definition on_dno_store (act : action) : bool :=
  match act with
  | DoImport _ | DoExport | DoAdd _ _ | DoRemove _ _ => true
  | DoUpload _ | DoFindZeros | DoFindLows => false
  end.

(** A light that is on wherever the key occurs. *)
Definition lit (key : string) (lights : list (string * bool)) : bool :=
  existsb (fun l => String.eqb (fst l) key && snd l) lights.

Module More.

Definition deli : row := Row (VStr "Deli") (VStr "Cheese") (VStr "Gouda") (VInt 3001) (VInt 4).
Definition unknown : row := Row (VStr "Garden") VNaN (VStr "Hose") (VInt 3002) (VInt 1).


(** A sheet whose Article column pandas keeps as text: one of its cells
    is no number. *)
Definition quince : row := Row (VStr "Grocery") (VStr "Produce") (VStr "Quince") (VStr "A-5") (VInt 5).
Definition lettered_stock : Pd.frame := [Sample.apple_text; Sample.pear_text; quince].

End More.

(* ================================================================== *)
(** * Properties                                                       *)
(* ================================================================== *)

(** ** The built-ins on examples *)

Example str_of_int_examples :
  map str_of_int [123; 0; -45] = ["123"; "0"; "-45"].
Proof. reflexivity. Qed.

Example int_literal_examples :
  map int_literal [" 1001 "; "007"; "-5"; "+1_000"; "abc"; "1__0"; "_1"; "1_"; ""; "123.0"]
  = [Some 1001; Some 7; Some (-5); Some 1000; None; None; None; None; None; None].
Proof. reflexivity. Qed.

(** [int()] does not drop the separator 0x1c that [str.strip] drops. *)
Example int_literal_separator :
  int_literal (String (ascii_of_nat 28) "7") = None
  /\ strip (String (ascii_of_nat 28) "7") = "7".
Proof. split; reflexivity. Qed.

Example int_of_float_examples :
  map int_of_float [123 # 1; 247 # 2; - 247 # 2]%Q = [123; 123; -123].
Proof. reflexivity. Qed.

Example strip_examples :
  map strip ["  9999 "; "a b"; "   "; ""] = ["9999"; "a b"; ""; ""].
Proof. reflexivity. Qed.

Example eqb_examples :
  map (fun p => Py.eqb (fst p) (snd p))
      [ (VInt 7, VInt 7); (VInt 7, VFloat (14 # 2)); (VStr "7", VInt 7);
        (VNaN, VNaN); (VStr "a", VStr "a") ]
  = [true; true; false; false; true].
Proof. reflexivity. Qed.

(** ** Loops, masks and sets *)

Section Traverse.
Context {A B : Type}.
Variable f : A -> exn + B.

Lemma traverse_total (g : A -> B) (xs : list A) :
  Forall (fun x => f x = inr (g x)) xs -> traverse f xs = inr (map g xs).
Proof.
  induction 1 as [|x xs Hx _ IH]; simpl.
  - reflexivity.
  - now rewrite Hx, IH.
Qed.

Lemma traverse_inr (xs : list A) (ys : list B) :
  traverse f xs = inr ys -> Forall2 (fun x y => f x = inr y) xs ys.
Proof.
  revert ys; induction xs as [|x xs IH]; simpl; intros ys H.
  - injection H as <-. constructor.
  - destruct (f x) as [e|y] eqn:Hx; [discriminate|].
    destruct (traverse f xs) as [e|ys'] eqn:Hxs; [discriminate|].
    injection H as <-. constructor; auto.
Qed.

Lemma traverse_inl (xs : list A) (e : exn) :
  traverse f xs = inl e -> exists x, In x xs /\ f x = inl e.
Proof.
  induction xs as [|x xs IH]; simpl; intros H; [discriminate|].
  destruct (f x) as [e'|y] eqn:Hx.
  - injection H as <-. exists x; auto.
  - destruct (traverse f xs) as [e'|ys]; [|discriminate].
    injection H as <-. destruct IH as (x' & Hin & Hx'); [reflexivity|].
    exists x'; auto.
Qed.

Lemma traverse_raises (xs : list A) (x : A) (e : exn) :
  In x xs -> f x = inl e -> exists e', traverse f xs = inl e'.
Proof.
  induction xs as [|y xs IH]; simpl; [tauto|].
  intros [->|Hin] Hx.
  - rewrite Hx. eauto.
  - destruct (f y); [eauto|].
    destruct (IH Hin Hx) as (e' & ->). eauto.
Qed.
End Traverse.

(** A mask computed from a column keeps the rows on which the test holds. *)
Lemma select_apply (test : value -> exn + bool) (name : row -> value)
      (df : Pd.frame) (mask : list bool) :
  Pd.apply test (Pd.column name df) = inr mask ->
  Pd.select mask df = filter (fun r => holds (test (name r))) df.
Proof.
  unfold Pd.apply, Pd.column.
  revert mask; induction df as [|r df IH]; simpl; intros mask H.
  - injection H as <-. reflexivity.
  - destruct (test (name r)) as [e|b] eqn:Hr; [discriminate|].
    destruct (traverse test (map name df)) as [e|m]; [discriminate|].
    injection H as <-. simpl. rewrite (IH m eq_refl). reflexivity.
Qed.

Lemma select_map (p : row -> bool) (df : Pd.frame) :
  Pd.select (map p df) df = filter p df.
Proof.
  induction df as [|r df IH]; simpl; [reflexivity|].
  rewrite IH. reflexivity.
Qed.

Lemma select_invert_apply (test : value -> exn + bool) (name : row -> value)
      (df : Pd.frame) (mask : list bool) :
  Pd.apply test (Pd.column name df) = inr mask ->
  Pd.select (Pd.invert mask) df = filter (fun r => negb (holds (test (name r)))) df.
Proof.
  unfold Pd.apply, Pd.column, Pd.invert.
  revert mask; induction df as [|r df IH]; simpl; intros mask H.
  - injection H as <-. reflexivity.
  - destruct (test (name r)) as [e|b] eqn:Hr; [discriminate|].
    destruct (traverse test (map name df)) as [e|m]; [discriminate|].
    injection H as <-. simpl. rewrite (IH m eq_refl). reflexivity.
Qed.

Lemma select_not_isin (dno_set : list value) (df : Pd.frame) :
  Pd.select (Pd.invert (Pd.isin (Pd.column Article df) dno_set)) df
  = filter (fun r => negb (contains dno_set (Article r))) df.
Proof.
  unfold Pd.invert, Pd.isin, Pd.column.
  rewrite !map_map. apply select_map.
Qed.

Lemma filter_filter {A : Type} (p q : A -> bool) (l : list A) :
  filter q (filter p l) = filter (fun x => p x && q x) l.
Proof.
  induction l as [|x l IH]; simpl; [reflexivity|].
  destruct (p x); simpl; [destruct (q x)|]; now rewrite IH.
Qed.

Lemma contains_app (s t : list value) (x : value) :
  contains s x = true -> contains (s ++ t) x = true.
Proof.
  unfold contains. rewrite existsb_app. intros ->. reflexivity.
Qed.

Lemma member_set_add (s : list value) (x y : value) :
  member s x -> member (set_add s y) x.
Proof.
  unfold member, set_add. destruct (contains s y); [tauto|].
  intros [H|H]; [left; apply in_or_app; auto | right; now apply contains_app].
Qed.

Lemma member_set_add_same (s : list value) (x : value) :
  member (set_add s x) x.
Proof.
  unfold member, set_add. destruct (contains s x) eqn:H; [now right|].
  left. apply in_or_app. right. now left.
Qed.

Lemma add_all_incl (xs : list value) :
  forall s, incl s (fold_left set_add xs s).
Proof.
  induction xs as [|x l IH]; simpl; intros s v Hv; [exact Hv|].
  apply IH. unfold set_add. destruct (contains s x); [exact Hv|].
  apply in_or_app; auto.
Qed.

Lemma add_all_keeps (xs : list value) :
  forall s v, member s v -> member (fold_left set_add xs s) v.
Proof.
  induction xs as [|x l IH]; simpl; intros s v Hv; [exact Hv|].
  apply IH. now apply member_set_add.
Qed.

Lemma add_all_member (xs : list value) :
  forall s v, In v xs -> member (fold_left set_add xs s) v.
Proof.
  induction xs as [|x l IH]; simpl; intros s v; [tauto|].
  intros [->|Hin].
  - apply add_all_keeps, member_set_add_same.
  - now apply IH.
Qed.

Lemma add_all_origin (xs : list value) :
  forall s v, In v (fold_left set_add xs s) -> In v s \/ In v xs.
Proof.
  induction xs as [|x l IH]; simpl; intros s v Hv; [auto|].
  destruct (IH _ _ Hv) as [H|H]; [|auto].
  unfold set_add in H. destruct (contains s x); [auto|].
  apply in_app_or in H as [H|[H|[]]]; auto.
Qed.

Lemma add_all_length (xs : list value) :
  forall s, (List.length s <= List.length (fold_left set_add xs s))%nat.
Proof.
  induction xs as [|x l IH]; simpl; intros s; [lia|].
  etransitivity; [|apply IH].
  unfold set_add. destruct (contains s x); [lia|].
  rewrite length_app. simpl. lia.
Qed.

(** ** The DNO store as [fetch_dno_articles] reads it *)

Lemma fetch_dno_articles_rows (db : Sqlite.file) :
  Sqlite.rows (snd (fetch_dno_articles db)) = Sqlite.rows db.
Proof. destruct db; reflexivity. Qed.

Lemma fetch_dno_articles_result (db : Sqlite.file) :
  fst (fetch_dno_articles db) = traverse int_of_str (Sqlite.rows db).
Proof. destruct db; reflexivity. Qed.

Lemma numeric_le_int (n : Z) (df : Pd.frame) :
  forallb numeric (Pd.column Inventory df) = true ->
  Pd.apply (fun v => le_int v n) (Pd.column Inventory df)
  = inr (map (fun v => holds (le_int v n)) (Pd.column Inventory df)).
Proof.
  intros H. apply traverse_total.
  rewrite forallb_forall in H. apply Forall_forall. intros v Hv.
  specialize (H v Hv). destruct v; simpl in *; try reflexivity; discriminate.
Qed.

Lemma numeric_gt_int (n : Z) (df : Pd.frame) :
  forallb numeric (Pd.column Inventory df) = true ->
  Pd.apply (fun v => gt_int v n) (Pd.column Inventory df)
  = inr (map (fun v => holds (gt_int v n)) (Pd.column Inventory df)).
Proof.
  intros H. apply traverse_total.
  rewrite forallb_forall in H. apply Forall_forall. intros v Hv.
  specialize (H v Hv). destruct v; simpl in *; try reflexivity; discriminate.
Qed.

(** ** The DNO store *)

Lemma eqb_int_refl (z : Z) : Py.eqb (VInt z) (VInt z) = true.
Proof. simpl. apply Qeq_bool_iff. reflexivity. Qed.

Lemma contains_int (dno_set : list value) (z : Z) :
  In (VInt z) dno_set -> contains dno_set (VInt z) = true.
Proof.
  intros H. unfold contains. apply existsb_exists.
  exists (VInt z). split; [exact H | apply eqb_int_refl].
Qed.

Lemma int_of_str_literal (text : string) (v : value) :
  int_of_str text = inr v <-> exists z, int_literal text = Some z /\ v = VInt z.
Proof.
  unfold int_of_str. destruct (int_literal text) as [z|]; split.
  - intros H. injection H as <-. eauto.
  - intros (z' & Hz & ->). now injection Hz as ->.
  - discriminate.
  - intros (z' & Hz & _). discriminate.
Qed.

Lemma read_all_literals (ids : list string) (dno_set : list value) :
  traverse int_of_str ids = inr dno_set ->
  forall text z, In text ids -> int_literal text = Some z -> In (VInt z) dno_set.
Proof.
  intros H. apply traverse_inr in H.
  induction H as [|text' v ids' vs Hv _ IH]; intros text z; simpl; [tauto|].
  intros [->|Hin] Hz.
  - left. apply int_of_str_literal in Hv as (z' & Hz' & ->). congruence.
  - right. eauto.
Qed.


Lemma insert_or_ignore_rows (article : string) (ids : list string) :
  exists ids',
    Sqlite.insert_or_ignore article (Sqlite.Table ids) = inr (Sqlite.Table ids')
    /\ In article ids' /\ incl ids ids'.
Proof.
  simpl. destruct (existsb (String.eqb article) ids) eqn:H; eexists; split; try reflexivity.
  - split; [|apply incl_refl].
    apply existsb_exists in H as (a & Ha & Heq). apply String.eqb_eq in Heq. now subst.
  - split; [apply in_or_app; simpl; auto | apply incl_appl, incl_refl].
Qed.

(** C3 (as amended).  [fetch_dno_articles] gives the empty result and
    creates nothing when the file dno.db does not exist; when the file
    exists it creates the table if that is missing; it never adds or drops
    a row; and on a store whose identifiers are all integer literals it
    returns their integer values, one per stored identifier and in the
    order of the table, so that the integer value of every identifier in
    the store, and so of one just added, is in the result. *)
Theorem fetch_dno_articles_members :
  fetch_dno_articles Sqlite.Absent = (inr [], Sqlite.Absent)
  /\ fetch_dno_articles Sqlite.NoTable = (inr [], Sqlite.Table [])
  /\ (forall db, Sqlite.rows (snd (fetch_dno_articles db)) = Sqlite.rows db)
  /\ (forall ids dno_set,
        traverse int_of_str ids = inr dno_set ->
        fetch_dno_articles (Sqlite.Table ids) = (inr dno_set, Sqlite.Table ids)
        /\ Forall2 (fun text v => exists z, int_literal text = Some z /\ v = VInt z)
                   ids dno_set
        /\ (forall text z, In text ids -> int_literal text = Some z ->
                           contains dno_set (VInt z) = true))
  /\ (forall app d entry z dno_set,
        int_literal (strip entry) = Some z ->
        let w := after (add_new_DNO app d entry true) in
        fst (fetch_dno_articles (dno_db (files w))) = inr dno_set ->
        contains dno_set (VInt z) = true).
Proof.
  split; [reflexivity|]. split; [reflexivity|].
  split; [apply fetch_dno_articles_rows|]. split.
  - intros ids dno_set H. split.
    { change (fetch_dno_articles (Sqlite.Table ids))
        with (traverse int_of_str ids, Sqlite.Table ids).
      now rewrite H. }
    split.
    + apply traverse_inr in H.
      induction H as [|text v ids' vs Hv _ IH]; constructor; [|exact IH].
      now apply int_of_str_literal.
    + intros text z Hin Hz. apply contains_int. eapply read_all_literals; eauto.
  - intros app d entry z dno_set Hz w Hfetch.
    rewrite fetch_dno_articles_result in Hfetch.
    apply contains_int. eapply read_all_literals; [exact Hfetch| |exact Hz].
    subst w. unfold add_new_DNO.
    destruct (String.eqb (strip entry) "") eqn:He.
    { apply String.eqb_eq in He. rewrite He in Hz. discriminate. }
    assert (Hc : exists ids, Sqlite.create_table (Sqlite.connect (dno_db d)) = Sqlite.Table ids)
      by (destruct (dno_db d); simpl; eauto).
    destruct Hc as (ids & ->).
    destruct (insert_or_ignore_rows (strip entry) ids) as (ids' & -> & Hin & _).
    exact Hin.
Qed.

(** The store holds "1001" and " 007": the result is [1001; 7]; then
    "  42 " is added and 42 is in the result. *)
Lemma fetch_dno_articles_members_witness :
  fetch_dno_articles (Sqlite.Table ["1001"; " 007"])
  = (inr [VInt 1001; VInt 7], Sqlite.Table ["1001"; " 007"])
  /\ contains [VInt 1001; VInt 7] (VInt 7) = true
  /\ contains [VInt 1001; VInt 7; VInt 42] (VInt 42) = true.
Proof.
  destruct fetch_dno_articles_members as (_ & _ & _ & Hread & Hadd).
  destruct (Hread ["1001"; " 007"] [VInt 1001; VInt 7] eq_refl) as (Hrun & _ & Hin).
  split; [exact Hrun|]. split.
  - apply (Hin " 007" 7); [simpl; auto | reflexivity].
  - apply (Hadd init (Sample.some_disk (Sqlite.Table ["1001"; " 007"])) "  42 " 42);
      reflexivity.
Defined.

(** C3 as stated fails twice over.  Without a file dno.db no table is
    created.  And the result holds integers, not the stored text: with the
    identifier "1001" in the store, the text "1001" is not in the result. *)
Lemma fetch_dno_articles_counterexample :
  snd (fetch_dno_articles Sqlite.Absent) = Sqlite.Absent
  /\ fetch_dno_articles (Sqlite.Table ["1001"])
     = (inr [VInt 1001], Sqlite.Table ["1001"])
  /\ contains [VInt 1001] (VStr "1001") = false.
Proof. repeat split. Qed.

Lemma filter_out_absent (article : string) (ids : list string) :
  ~ In article ids ->
  filter (fun a => negb (String.eqb a article)) ids = ids.
Proof.
  induction ids as [|a ids IH]; simpl; intros H; [reflexivity|].
  destruct (String.eqb a article) eqn:Ha; simpl.
  - apply String.eqb_eq in Ha. tauto.
  - rewrite IH; tauto.
Qed.

Lemma filter_out_present (article : string) (ids : list string) :
  In article ids ->
  (List.length (filter (fun a => negb (String.eqb a article)) ids) < List.length ids)%nat.
Proof.
  induction ids as [|a ids IH]; simpl; [tauto|]. intros H.
  destruct (String.eqb a article) eqn:Ha; simpl.
  - pose proof (filter_length_le (fun a => negb (String.eqb a article)) ids). lia.
  - apply String.eqb_neq in Ha. destruct H as [H|H]; [congruence|].
    specialize (IH H). lia.
Qed.

Lemma filter_out_gone (article : string) (ids : list string) :
  ~ In article (filter (fun a => negb (String.eqb a article)) ids).
Proof.
  intros H. apply filter_In in H as [_ H].
  rewrite String.eqb_refl in H. discriminate.
Qed.

(** X22.  [remove_from_DNO], confirmed and with an entry that is not
    blank, never raises and leaves a store without the identifier.  On a
    file dno.db that has the table it shows "Success" and counts a change
    when a row was there, and shows "Not Found" and changes nothing when
    none was.  On a missing file, or a file without the table, the DELETE
    fails: the alert is the database error "no such table: dno", and the
    file dno.db exists afterwards, without a table. *)
Theorem remove_from_DNO_reports (app : FiltererApp) (d : disk) (entry : string) :
  String.eqb (strip entry) "" = false ->
  let article := strip entry in
  let ids := Sqlite.rows (dno_db d) in
  exists w,
    remove_from_DNO app d entry true = Returns w
    /\ Sqlite.rows (dno_db (files w))
       = filter (fun a => negb (String.eqb a article)) ids
    /\ ~ In article (Sqlite.rows (dno_db (files w)))
    /\ (In article ids ->
        shown w = [Alert "Success" ("Article " ++ article ++ " removed from DNO.")%string]
        /\ new_found_dnos (self w) = new_found_dnos app + 1)
    /\ (~ In article ids ->
        Sqlite.rows (dno_db (files w)) = ids /\ self w = app)
    /\ (forall l, dno_db d = Sqlite.Table l -> ~ In article l ->
          w = World app d
                [Alert "Not Found" ("Article " ++ article ++ " was not in DNO.")%string])
    /\ (dno_db d = Sqlite.Absent \/ dno_db d = Sqlite.NoTable ->
        w = World app (with_dno_db d Sqlite.NoTable)
              [Alert "Error" "no such table: dno"]).
Proof.
  intros Hentry article ids. unfold remove_from_DNO. rewrite Hentry. fold article.
  destruct d as [db t txt]. simpl in ids. unfold with_dno_db. simpl.
  destruct db as [| |l]; simpl in *.
  - eexists; split; [reflexivity|]. simpl. repeat split; auto; try tauto.
    intros l Hl. discriminate.
  - eexists; split; [reflexivity|]. simpl. repeat split; auto; try tauto.
    intros l Hl. discriminate.
  - subst ids.
    destruct (0 <? Z.of_nat (List.length l)
                   - Z.of_nat (List.length (filter (fun a => negb (String.eqb a article)) l)))
      eqn:Hcount; eexists; (split; [reflexivity|]); simpl.
    + split; [reflexivity|]. split; [apply filter_out_gone|]. split; [auto|].
      assert (Hin : In article l).
      { destruct (in_dec string_dec article l) as [Hin|Hno]; [exact Hin|].
        rewrite (filter_out_absent _ _ Hno) in Hcount.
        apply Z.ltb_lt in Hcount. lia. }
      split; [tauto|]. split.
      * intros l' Hl' Hno. injection Hl' as <-. tauto.
      * intros [H|H]; discriminate.
    + split; [reflexivity|]. split; [apply filter_out_gone|]. split.
      * intros Hin. apply filter_out_present in Hin.
        apply Z.ltb_ge in Hcount. lia.
      * split; [|split].
        -- intros Hno. rewrite (filter_out_absent _ _ Hno). auto.
        -- intros l' Hl' Hno. injection Hl' as <-.
           rewrite (filter_out_absent _ _ Hno). reflexivity.
        -- intros [H|H]; discriminate.
Qed.

(** Removing " 9999 " from a store that holds 1001 alone, and when there
    is no file dno.db. *)
Lemma remove_from_DNO_reports_witness :
  String.eqb (strip " 9999 ") "" = false
  /\ remove_from_DNO init (Sample.some_disk (Sqlite.Table ["1001"])) " 9999 " true
     = Returns (World init (Sample.some_disk (Sqlite.Table ["1001"]))
                  [Alert "Not Found" "Article 9999 was not in DNO."])
  /\ remove_from_DNO init (Sample.some_disk Sqlite.Absent) " 9999 " true
     = Returns (World init (Sample.some_disk Sqlite.NoTable)
                  [Alert "Error" "no such table: dno"]).
Proof.
  split; [reflexivity|]. split.
  - destruct (remove_from_DNO_reports init (Sample.some_disk (Sqlite.Table ["1001"]))
                " 9999 " eq_refl) as (w & Hrun & _ & _ & _ & _ & Habsent & _).
    rewrite Hrun. f_equal. apply (Habsent ["1001"] eq_refl).
    simpl. intros [H|[]]. discriminate.
  - destruct (remove_from_DNO_reports init (Sample.some_disk Sqlite.Absent)
                " 9999 " eq_refl) as (w & Hrun & _ & _ & _ & _ & _ & Hnone).
    rewrite Hrun. f_equal. apply Hnone. left. reflexivity.
Defined.

(** C9.  Removing article 9999 when there is no file dno.db: the removal
    is to report that nothing was removed.  [remove_from_DNO] runs its
    DELETE without the CREATE TABLE IF NOT EXISTS that [add_new_DNO],
    [import_dno] and [fetch_dno_articles] run first, so the statement
    fails: the alert shown is the database error, and an empty file
    dno.db is left where there was none.  On the file that [add_new_DNO]
    makes, the same removal shows "Not Found". *)
Lemma remove_from_DNO_without_table :
  remove_from_DNO init (Sample.some_disk Sqlite.Absent) "9999" true
  = Returns (World init (Sample.some_disk Sqlite.NoTable)
               [Alert "Error" "no such table: dno"])
  /\ remove_from_DNO init (Sample.some_disk Sqlite.NoTable) "9999" true
     = Returns (World init (Sample.some_disk Sqlite.NoTable)
                  [Alert "Error" "no such table: dno"])
  /\ files (after (add_new_DNO init (Sample.some_disk Sqlite.Absent) "1001" true))
     = Sample.dno ["1001"]
  /\ remove_from_DNO init (Sample.dno ["1001"]) "9999" true
     = Returns (World init (Sample.dno ["1001"])
                  [Alert "Not Found" "Article 9999 was not in DNO."])
  /\ fetch_dno_articles Sqlite.Absent = (inr [], Sqlite.Absent).
Proof. repeat split. Qed.

(** C8.  Without a file dno.db, [export_dno] shows the error alert and
    leaves every file, the destination among them, as it was.  With a file
    dno.db and a destination that can be written, the destination holds a
    copy of dno.db afterwards and dno.db itself is unchanged. *)
Theorem export_dno_copies (app : FiltererApp) (d : disk) :
  (dno_db d = Sqlite.Absent ->
   export_dno app d
   = Returns (World app d [Alert "Error" "No local dno.db found to export."]))
  /\ (forall old,
        Sqlite.exists_ (dno_db d) = true ->
        dst d = Holds old ->
        exists w,
          export_dno app d = Returns w
          /\ dst (files w) = Holds (dno_db d)
          /\ dno_db (files w) = dno_db d
          /\ self w = app
          /\ shown w = [Alert "Success" ("dno.db exported to:" ++ nl ++ dst_text d)%string]).
Proof.
  unfold export_dno. split.
  - intros ->. reflexivity.
  - intros old -> ->. eexists. split; [reflexivity|]. repeat split.
Qed.

(** An export with no store, and an export of a store of two articles
    over an older copy. *)
Lemma export_dno_copies_witness :
  export_dno init (Disk Sqlite.Absent (Holds (Sqlite.Table ["7"])) "dno.db")
  = Returns (World init (Disk Sqlite.Absent (Holds (Sqlite.Table ["7"])) "dno.db")
               [Alert "Error" "No local dno.db found to export."])
  /\ exists w,
       export_dno init (Disk (Sqlite.Table ["1001"; "1002"]) (Holds (Sqlite.Table ["7"])) "dno.db")
       = Returns w
       /\ dst (files w) = Holds (Sqlite.Table ["1001"; "1002"]).
Proof.
  split.
  - apply (proj1 (export_dno_copies init _)). reflexivity.
  - destruct (proj2 (export_dno_copies init
                (Disk (Sqlite.Table ["1001"; "1002"]) (Holds (Sqlite.Table ["7"])) "dno.db"))
                (Sqlite.Table ["7"]) eq_refl eq_refl) as (w & Hrun & Hdst & _).
    exists w. split; [exact Hrun | exact Hdst].
Defined.

(** ** Import of a DNO workbook *)

Lemma first_ten_values_notna (df : Pd.sheet) :
  Forall (fun v => Pd.isna v = false) (Pd.first_ten_values df).
Proof.
  apply Forall_forall. intros v Hv. unfold Pd.first_ten_values in Hv.
  apply filter_In in Hv as [_ Hv]. now apply negb_true_iff in Hv.
Qed.

Lemma all_values_notna (xls : list Pd.sheet) :
  Forall (fun v => Pd.isna v = false) (flat_map Pd.first_ten_values xls).
Proof.
  induction xls as [|df xls IH]; simpl; [constructor|].
  apply Forall_app. split; [apply first_ten_values_notna | exact IH].
Qed.

Lemma article_text_notna (item : value) :
  Pd.isna item = false -> article_text item = inr (identifier item).
Proof. destruct item; simpl; intros H; try reflexivity; discriminate. Qed.


Lemma connect_create (db : Sqlite.file) :
  Sqlite.create_table (Sqlite.connect db) = Sqlite.Table (Sqlite.rows db).
Proof. destruct db; reflexivity. Qed.

(** The loop of [import_dno] appends the identifiers that the table does
    not hold yet, each once. *)
Lemma insert_each_appends (all_values : list value) :
  Forall (fun v => Pd.isna v = false) all_values ->
  forall ids, exists added,
    insert_each all_values (Sqlite.Table ids) = inr (Sqlite.Table (ids ++ added))
    /\ NoDup added
    /\ (forall t, In t added <->
                  ~ In t ids /\ exists item, In item all_values /\ identifier item = t).
Proof.
  induction 1 as [|item rest Hitem _ IH]; intros ids.
  - exists []. simpl. rewrite app_nil_r. split; [reflexivity|].
    split; [constructor|]. intros t. split; [tauto|]. intros (_ & item & [] & _).
  - cbn [insert_each]. rewrite (article_text_notna _ Hitem).
    cbn [Sqlite.insert_or_ignore].
    destruct (existsb (String.eqb (identifier item)) ids) eqn:Hin.
    + apply existsb_exists in Hin as (a & Ha & Heq).
      apply String.eqb_eq in Heq. subst a.
      destruct (IH ids) as (added & Hrun & Hnodup & Hmem).
      exists added. split; [exact Hrun|]. split; [exact Hnodup|].
      intros t. rewrite Hmem. split.
      * intros (Hno & it & Hit & Ht). split; [exact Hno|]. exists it. simpl. auto.
      * intros (Hno & it & [->|Hit] & Ht); [subst t; tauto|].
        split; [exact Hno|]. eauto.
    + assert (Hnew : ~ In (identifier item) ids).
      { intros Hi. apply not_true_iff_false in Hin. apply Hin.
        apply existsb_exists. exists (identifier item).
        split; [exact Hi | apply String.eqb_refl]. }
      destruct (IH (ids ++ [identifier item])) as (added & Hrun & Hnodup & Hmem).
      exists (identifier item :: added). rewrite Hrun, <- app_assoc. simpl.
      split; [reflexivity|]. split.
      * constructor; [|exact Hnodup]. intros Hi. apply Hmem in Hi as [Hi _].
        apply Hi, in_or_app. simpl. auto.
      * intros t. split.
        -- intros [<-|Ht]; [split; [exact Hnew|]; exists item; simpl; auto|].
           apply Hmem in Ht as (Hno & it & Hit & Ht). split.
           ++ intros Hi. apply Hno, in_or_app. auto.
           ++ exists it. simpl. auto.
        -- intros (Hno & it & Hit & Ht). simpl.
           destruct (string_dec (identifier item) t) as [Heq|Hneq]; [auto|].
           right. apply Hmem. split.
           ++ intros Hi. apply in_app_or in Hi as [Hi|[Hi|[]]]; tauto.
           ++ destruct Hit as [->|Hit]; [tauto|]. eauto.
Qed.

(** When the table holds every identifier of the workbook already, the
    loop leaves it as it is. *)
Lemma insert_each_nothing_new (all_values : list value) (ids : list string) :
  Forall (fun v => Pd.isna v = false) all_values ->
  (forall item, In item all_values -> In (identifier item) ids) ->
  insert_each all_values (Sqlite.Table ids) = inr (Sqlite.Table ids).
Proof.
  induction 1 as [|item rest Hitem _ IH]; intros Hall; [reflexivity|].
  cbn [insert_each]. rewrite (article_text_notna _ Hitem).
  cbn [Sqlite.insert_or_ignore].
  assert (Hin : existsb (String.eqb (identifier item)) ids = true).
  { apply existsb_exists. exists (identifier item).
    split; [apply Hall; simpl; auto | apply String.eqb_refl]. }
  rewrite Hin. apply IH. intros it Hit. apply Hall. simpl. auto.
Qed.

(** What [import_dno] does with a workbook that could be read. *)
Lemma import_dno_workbook (app : FiltererApp) (d : disk) (xls : list Pd.sheet) :
  exists added,
    let ids := Sqlite.rows (dno_db d) in
    let diff := Z.of_nat (List.length added) in
    import_dno app d (Workbook (inr xls))
    = Returns (World
        (if 0 <? diff then with_new_found_dnos app (new_found_dnos app + diff) else app)
        (with_dno_db d (Sqlite.Table (ids ++ added)))
        [if 0 <? diff
         then Alert "" ("Imported " ++ str_of_int diff ++ " new DNO articles.")%string
         else Alert "" "No new DNO articles or all duplicates."])
    /\ NoDup added
    /\ (forall t, In t added <->
                  ~ In t ids
                  /\ exists item, In item (flat_map Pd.first_ten_values xls)
                                  /\ identifier item = t).
Proof.
  destruct (insert_each_appends _ (all_values_notna xls) (Sqlite.rows (dno_db d)))
    as (added & Hrun & Hnodup & Hmem).
  exists added. cbv zeta. split; [|split; assumption].
  unfold import_dno. rewrite connect_create. cbn [Sqlite.count].
  rewrite Hrun. cbn [Sqlite.count].
  replace (Z.of_nat (List.length (Sqlite.rows (dno_db d) ++ added))
           - Z.of_nat (List.length (Sqlite.rows (dno_db d))))
    with (Z.of_nat (List.length added))
    by (rewrite length_app; lia).
  destruct (0 <? Z.of_nat (List.length added)); reflexivity.
Qed.

(** C5.  Importing a workbook appends to the store the identifiers it did
    not hold, each once, and reports their number (or that there was none);
    importing the same workbook again reports no new identifier and leaves
    the state and the store as the first import left them. *)
Theorem import_dno_twice (app : FiltererApp) (d : disk) (xls : list Pd.sheet) :
  exists added w,
    let ids := Sqlite.rows (dno_db d) in
    let diff := Z.of_nat (List.length added) in
    import_dno app d (Workbook (inr xls)) = Returns w
    /\ dno_db (files w) = Sqlite.Table (ids ++ added)
    /\ NoDup added
    /\ (forall t, In t added <->
                  ~ In t ids
                  /\ exists item, In item (flat_map Pd.first_ten_values xls)
                                  /\ identifier item = t)
    /\ shown w = [if 0 <? diff
                  then Alert "" ("Imported " ++ str_of_int diff ++ " new DNO articles.")%string
                  else Alert "" "No new DNO articles or all duplicates."]
    /\ new_found_dnos (self w) = new_found_dnos app + diff
    /\ import_dno (self w) (files w) (Workbook (inr xls))
       = Returns (World (self w) (files w)
                    [Alert "" "No new DNO articles or all duplicates."]).
Proof.
  destruct (import_dno_workbook app d xls) as (added & Hrun & Hnodup & Hmem).
  cbv zeta in Hrun.
  eexists added, _. cbv zeta. split; [exact Hrun|]. cbn [files self shown].
  split; [reflexivity|]. split; [exact Hnodup|]. split; [exact Hmem|].
  split; [reflexivity|]. split.
  - destruct (0 <? Z.of_nat (List.length added)) eqn:Hdiff; [reflexivity|].
    apply Z.ltb_ge in Hdiff. lia.
  - set (app' := if 0 <? Z.of_nat (List.length added) then _ else app).
    unfold import_dno. cbn [with_dno_db dno_db]. rewrite connect_create.
    cbn [Sqlite.rows Sqlite.count].
    rewrite insert_each_nothing_new.
    + cbn [Sqlite.count]. rewrite Z.sub_diag. reflexivity.
    + apply all_values_notna.
    + intros item Hitem.
      destruct (in_dec string_dec (identifier item) (Sqlite.rows (dno_db d))) as [Hin|Hno].
      * apply in_or_app. auto.
      * apply in_or_app. right. apply Hmem. split; [exact Hno|]. eauto.
Qed.



(** Two imports of one workbook with the article 123 written three ways,
    a text and an empty cell, into a store that holds "5". *)
Lemma import_dno_twice_witness :
  exists w,
    import_dno init (Sample.dno ["5"]) (Workbook (inr Sample.workbook)) = Returns w
    /\ dno_db (files w) = Sqlite.Table ["5"; "123"; "ABC"]
    /\ shown w = [Alert "" "Imported 2 new DNO articles."]
    /\ import_dno (self w) (files w) (Workbook (inr Sample.workbook))
       = Returns (World (self w) (files w) [Alert "" "No new DNO articles or all duplicates."]).
Proof.
  destruct (import_dno_twice init (Sample.dno ["5"]) Sample.workbook)
    as (added & w & Hrun & _ & _ & _ & _ & _ & Hagain).
  exists w. split; [exact Hrun|].
  assert (Hw : Returns w = import_dno init (Sample.dno ["5"]) (Workbook (inr Sample.workbook)))
    by (symmetry; exact Hrun).
  vm_compute in Hw. injection Hw as Hw.
  split; [|split]; [rewrite Hw; reflexivity .. | exact Hagain].
Defined.



(** ** Keys of [drop_duplicates] *)

Lemma eqb_sym (v w : value) : Py.eqb v w = Py.eqb w v.
Proof.
  destruct v, w; simpl; try reflexivity.
  - apply eq_true_iff_eq. rewrite !Qeq_bool_iff. split; intros H; now symmetry.
  - apply eq_true_iff_eq. rewrite !Qeq_bool_iff. split; intros H; now symmetry.
  - apply eq_true_iff_eq. rewrite !Qeq_bool_iff. split; intros H; now symmetry.
  - apply eq_true_iff_eq. rewrite !Qeq_bool_iff. split; intros H; now symmetry.
  - apply String.eqb_sym.
Qed.

Lemma same_key_sym (v w : value) : Pd.same_key v w = Pd.same_key w v.
Proof.
  destruct v, w; try reflexivity; unfold Pd.same_key; apply eqb_sym.
Qed.

Lemma same_key_trans (u v w : value) :
  Pd.same_key u v = true -> Pd.same_key v w = true -> Pd.same_key u w = true.
Proof.
  destruct u, v, w; simpl; try discriminate; try reflexivity;
    try (rewrite !Qeq_bool_iff; intros H1 H2; now rewrite H1);
    rewrite !String.eqb_eq; congruence.
Qed.

Lemma drop_duplicates_last_incl (name : row -> value) (df : Pd.frame) :
  incl (Pd.drop_duplicates_last name df) df.
Proof.
  induction df as [|r rest IH]; simpl; [apply incl_refl|].
  destruct (existsb _ rest).
  - now apply incl_tl.
  - intros x [->|Hx]; [now left | right; now apply IH].
Qed.

Lemma drop_duplicates_last_distinct (df : Pd.frame) :
  ForallOrdPairs (fun r r' => Pd.same_key (Article r) (Article r') = false)
                 (Pd.drop_duplicates_last Article df).
Proof.
  induction df as [|r rest IH]; simpl; [constructor|].
  destruct (existsb _ rest) eqn:Hdup; [exact IH|].
  constructor; [|exact IH].
  apply Forall_forall. intros r' Hr'.
  apply drop_duplicates_last_incl in Hr'.
  apply not_true_iff_false. intros Hsame.
  apply not_true_iff_false in Hdup. apply Hdup.
  apply existsb_exists. eauto.
Qed.

Lemma last_with_none (a : value) (df : Pd.frame) :
  last_with a df = None <-> forall r, In r df -> Pd.same_key a (Article r) = false.
Proof.
  induction df as [|r rest IH]; simpl.
  - split; [intros _ r [] | reflexivity].
  - destruct (last_with a rest) as [r'|].
    + split; [discriminate|]. intros H. destruct IH as [_ IH].
      assert (Habs : Some r' = None) by (apply IH; intros x Hx; apply H; auto).
      discriminate.
    + destruct (Pd.same_key a (Article r)) eqn:Hr.
      * split; [discriminate|]. intros H. rewrite (H r) in Hr; [discriminate | auto].
      * split; [|reflexivity]. intros _ x [<-|Hx]; [exact Hr|].
        apply IH; [reflexivity | exact Hx].
Qed.

Lemma last_with_app (a : value) (old new : Pd.frame) :
  last_with a (old ++ new)
  = match last_with a new with
    | Some r => Some r
    | None => last_with a old
    end.
Proof.
  induction old as [|r rest IH]; simpl.
  - destruct (last_with a new); reflexivity.
  - rewrite IH. destruct (last_with a new); reflexivity.
Qed.

(** After [drop_duplicates] the rows with a given key are the one row
    that carried it furthest down, if any. *)
Lemma drop_duplicates_last_keeps_last (a : value) (df : Pd.frame) :
  filter (fun r => Pd.same_key a (Article r)) (Pd.drop_duplicates_last Article df)
  = match last_with a df with
    | Some r => [r]
    | None => []
    end.
Proof.
  induction df as [|r rest IH]; simpl; [reflexivity|].
  destruct (existsb (fun r' => Pd.same_key (Article r) (Article r')) rest) eqn:Hdup.
  - rewrite IH. destruct (last_with a rest) as [r'|] eqn:Hlast; [reflexivity|].
    destruct (Pd.same_key a (Article r)) eqn:Hr; [|reflexivity].
    apply existsb_exists in Hdup as (r' & Hr' & Hsame).
    pose proof (same_key_trans _ _ _ Hr Hsame) as Habs.
    rewrite (proj1 (last_with_none a rest) Hlast r' Hr') in Habs. discriminate.
  - simpl. assert (Hrest : forall r', In r' rest ->
                      Pd.same_key (Article r) (Article r') = false).
    { intros r' Hr'. apply not_true_iff_false. intros Hsame.
      apply not_true_iff_false in Hdup. apply Hdup.
      apply existsb_exists. eauto. }
    destruct (Pd.same_key a (Article r)) eqn:Hr.
    + assert (Hnone : last_with a rest = None).
      { apply last_with_none. intros r' Hr'.
        apply not_true_iff_false. intros Hsame.
        rewrite same_key_sym in Hr.
        pose proof (same_key_trans _ _ _ Hr Hsame) as Habs.
        rewrite (Hrest r' Hr') in Habs. discriminate. }
      rewrite IH, Hnone. reflexivity.
    + rewrite IH. destruct (last_with a rest); reflexivity.
Qed.

(** ** Upload of an inventory sheet *)

Lemma any_startswith_text (cat : string) (bads : list string) :
  any_startswith (VStr cat) bads = inr (existsb (fun bad => String.prefix bad cat) bads).
Proof.
  induction bads as [|bad rest IH]; simpl; [reflexivity|].
  destruct (String.prefix bad cat); [reflexivity | exact IH].
Qed.

Lemma is_banned_not_text (cat : value) :
  is_str cat = false -> is_banned cat = inl AttributeError.
Proof. destruct cat; simpl; intros H; try reflexivity; discriminate. Qed.

Lemma is_banned_cases (cat : value) :
  (exists b, is_banned cat = inr b /\ is_str cat = true)
  \/ (is_banned cat = inl AttributeError /\ is_str cat = false).
Proof.
  destruct cat; try (right; split; reflexivity).
  left. unfold is_banned. rewrite any_startswith_text. eauto.
Qed.

Lemma apply_is_banned_text (df : Pd.frame) :
  forallb is_str (Pd.column Merchandise_Category df) = true ->
  Pd.apply is_banned (Pd.column Merchandise_Category df)
  = inr (map (fun cat => holds (is_banned cat)) (Pd.column Merchandise_Category df)).
Proof.
  intros H. apply traverse_total. apply Forall_forall. intros cat Hcat.
  rewrite forallb_forall in H. specialize (H cat Hcat).
  destruct (is_banned_cases cat) as [(b & Hb & _)|[_ Hno]]; [|congruence].
  rewrite Hb. reflexivity.
Qed.

Lemma apply_is_banned_not_text (df : Pd.frame) :
  forallb is_str (Pd.column Merchandise_Category df) = false ->
  Pd.apply is_banned (Pd.column Merchandise_Category df) = inl AttributeError.
Proof.
  intros H.
  assert (Hex : exists cat, In cat (Pd.column Merchandise_Category df) /\ is_str cat = false).
  { induction (Pd.column Merchandise_Category df) as [|c l IH]; simpl in H; [discriminate|].
    destruct (is_str c) eqn:Hc; simpl in H.
    - destruct (IH H) as (cat & Hin & Hcat). exists cat. simpl. auto.
    - exists c. simpl. auto. }
  destruct Hex as (cat & Hin & Hcat).
  destruct (traverse_raises is_banned _ cat AttributeError Hin (is_banned_not_text _ Hcat))
    as (e & He).
  unfold Pd.apply. rewrite He. f_equal.
  apply traverse_inl in He as (cat' & _ & Hcat').
  destruct (is_banned_cases cat') as [(b & Hb & _)|[Hb _]]; congruence.
Qed.

(** What [upload_excel] does with a sheet whose categories are all text. *)
Lemma upload_excel_text (app : FiltererApp) (d : disk) (new_df : Pd.frame) :
  forallb is_str (Pd.column Merchandise_Category new_df) = true ->
  upload_excel app d (Some new_df)
  = Returns (World
      (with_df_inventory
         (with_lights_bool app
            (fold_left light_up (Pd.column Department new_df) (lights_bool app)))
         (Pd.drop_duplicates_last Article (df_inventory app ++ filter allowed new_df)))
      d []).
Proof.
  intros H. unfold upload_excel. rewrite (apply_is_banned_text _ H).
  cbn [with_lights_bool df_inventory].
  unfold Pd.invert, Pd.column. rewrite !map_map, select_map.
  unfold Pd.concat. fold allowed.
  destruct (df_inventory app); reflexivity.
Qed.

Lemma upload_excel_not_text (app : FiltererApp) (d : disk) (new_df : Pd.frame) :
  forallb is_str (Pd.column Merchandise_Category new_df) = false ->
  upload_excel app d (Some new_df)
  = Raises AttributeError
      (World (with_lights_bool app
                (fold_left light_up (Pd.column Department new_df) (lights_bool app)))
             d []).
Proof.
  intros H. unfold upload_excel. now rewrite (apply_is_banned_not_text _ H).
Qed.

(** C10.  [upload_excel] completes exactly on the sheets whose
    "Merchandise Category" cells are all text.  A sheet with a category
    cell that is not text, an empty cell for one, makes the banned-category
    test raise [AttributeError]: the handler is left by the exception, no
    row of the sheet is dropped or kept, and the inventory table stays as
    it was. *)
Theorem upload_excel_needs_text_categories (app : FiltererApp) (d : disk) (new_df : Pd.frame) :
  (forallb is_str (Pd.column Merchandise_Category new_df) = true ->
   exists w, upload_excel app d (Some new_df) = Returns w)
  /\ (forallb is_str (Pd.column Merchandise_Category new_df) = false ->
      exists w, upload_excel app d (Some new_df) = Raises AttributeError w
                /\ df_inventory (self w) = df_inventory app)
  /\ (forall r, In r new_df -> Merchandise_Category r = VNaN ->
      exists w, upload_excel app d (Some new_df) = Raises AttributeError w
                /\ df_inventory (self w) = df_inventory app).
Proof.
  split; [|split].
  - intros H. rewrite (upload_excel_text _ _ _ H). eauto.
  - intros H. rewrite (upload_excel_not_text _ _ _ H). eauto.
  - intros r Hr Hcat.
    assert (H : forallb is_str (Pd.column Merchandise_Category new_df) = false).
    { apply not_true_iff_false. intros Hall. rewrite forallb_forall in Hall.
      specialize (Hall (Merchandise_Category r) (in_map _ _ _ Hr)).
      rewrite Hcat in Hall. discriminate. }
    rewrite (upload_excel_not_text _ _ _ H). eauto.
Qed.

(** C7.  After an upload that completes, no two rows of the inventory
    table carry the same article; the rows that carry a given article are
    the single row that carried it last in the upload (among the rows that
    the category filter lets through) or, when the upload has none, the
    row the table had for it; and every row of the table comes from the
    old table or from the upload. *)
Theorem upload_excel_last_wins (app : FiltererApp) (d : disk) (new_df : Pd.frame) (w : world) :
  upload_excel app d (Some new_df) = Returns w ->
  ForallOrdPairs (fun r r' => Pd.same_key (Article r) (Article r') = false)
                 (df_inventory (self w))
  /\ (forall a,
        filter (fun r => Pd.same_key a (Article r)) (df_inventory (self w))
        = match last_with a (filter allowed new_df) with
          | Some r => [r]
          | None =>
              match last_with a (df_inventory app) with
              | Some r => [r]
              | None => []
              end
          end)
  /\ incl (df_inventory (self w)) (df_inventory app ++ new_df).
Proof.
  intros Hrun.
  destruct (forallb is_str (Pd.column Merchandise_Category new_df)) eqn:Htext.
  - rewrite (upload_excel_text _ _ _ Htext) in Hrun. injection Hrun as <-.
    cbn [self df_inventory with_df_inventory]. split; [|split].
    + apply drop_duplicates_last_distinct.
    + intros a. rewrite drop_duplicates_last_keeps_last, last_with_app.
      destruct (last_with a (filter allowed new_df)); reflexivity.
    + intros r Hr. apply drop_duplicates_last_incl in Hr.
      apply in_app_or in Hr as [Hr|Hr]; apply in_or_app; [auto|].
      right. apply filter_In in Hr. tauto.
  - rewrite (upload_excel_not_text _ _ _ Htext) in Hrun. discriminate.
Qed.

(** ** Sessions *)

Lemma import_dno_keeps_tables (app : FiltererApp) (d : disk) (picked : dno_source) :
  df_inventory (self (after (import_dno app d picked))) = df_inventory app
  /\ filtered_zeros (self (after (import_dno app d picked))) = filtered_zeros app
  /\ filtered_lows (self (after (import_dno app d picked))) = filtered_lows app.
Proof.
  destruct picked as [|content|[e|xls]|why]; try (repeat split; reflexivity).
  destruct (import_dno_workbook app d xls) as (added & Hrun & _).
  cbv zeta in Hrun. rewrite Hrun.
  destruct (0 <? Z.of_nat (List.length added)); repeat split; reflexivity.
Qed.

Lemma export_dno_keeps_tables (app : FiltererApp) (d : disk) :
  df_inventory (self (after (export_dno app d))) = df_inventory app
  /\ filtered_zeros (self (after (export_dno app d))) = filtered_zeros app
  /\ filtered_lows (self (after (export_dno app d))) = filtered_lows app.
Proof.
  unfold export_dno.
  destruct (negb (Sqlite.exists_ (dno_db d))); [repeat split; reflexivity|].
  destruct (dst d); repeat split; reflexivity.
Qed.

Lemma add_new_DNO_keeps_tables (app : FiltererApp) (d : disk) (entry : string) (confirm : bool) :
  df_inventory (self (after (add_new_DNO app d entry confirm))) = df_inventory app
  /\ filtered_zeros (self (after (add_new_DNO app d entry confirm))) = filtered_zeros app
  /\ filtered_lows (self (after (add_new_DNO app d entry confirm))) = filtered_lows app.
Proof.
  unfold add_new_DNO.
  destruct (String.eqb (strip entry) ""); [repeat split; reflexivity|].
  destruct confirm; [|repeat split; reflexivity].
  rewrite connect_create. repeat split; reflexivity.
Qed.

Lemma remove_from_DNO_keeps_tables (app : FiltererApp) (d : disk) (entry : string) (confirm : bool) :
  df_inventory (self (after (remove_from_DNO app d entry confirm))) = df_inventory app
  /\ filtered_zeros (self (after (remove_from_DNO app d entry confirm))) = filtered_zeros app
  /\ filtered_lows (self (after (remove_from_DNO app d entry confirm))) = filtered_lows app.
Proof.
  unfold remove_from_DNO.
  destruct (String.eqb (strip entry) ""); [repeat split; reflexivity|].
  destruct confirm; [|repeat split; reflexivity].
  destruct (dno_db d); simpl; try (repeat split; reflexivity).
  destruct (0 <? _); repeat split; reflexivity.
Qed.

Lemma upload_excel_keeps_sets (app : FiltererApp) (d : disk) (picked : option Pd.frame) :
  filtered_zeros (self (after (upload_excel app d picked))) = filtered_zeros app
  /\ filtered_lows (self (after (upload_excel app d picked))) = filtered_lows app.
Proof.
  destruct picked as [new_df|]; [|split; reflexivity].
  unfold upload_excel. destruct (Pd.apply _ _); split; reflexivity.
Qed.

Lemma find_zeros_grows (app : FiltererApp) (d : disk) :
  df_inventory (self (after (find_zeros app d))) = df_inventory app
  /\ incl (filtered_zeros app) (filtered_zeros (self (after (find_zeros app d))))
  /\ filtered_lows (self (after (find_zeros app d))) = filtered_lows app.
Proof.
  unfold find_zeros.
  destruct (Pd.empty (df_inventory app)); [repeat split; apply incl_refl|].
  destruct (Pd.apply _ _); [repeat split; apply incl_refl|].
  destruct (fetch_dno_articles (dno_db d)) as [[e|dno_set] conn];
    [repeat split; apply incl_refl|].
  repeat split. apply add_all_incl.
Qed.

Lemma find_lows_grows (app : FiltererApp) (d : disk) :
  df_inventory (self (after (find_lows app d))) = df_inventory app
  /\ filtered_zeros (self (after (find_lows app d))) = filtered_zeros app
  /\ incl (filtered_lows app) (filtered_lows (self (after (find_lows app d)))).
Proof.
  unfold find_lows.
  destruct (Pd.empty (df_inventory app)); [repeat split; apply incl_refl|].
  destruct (Pd.apply (fun v => gt_int v 0) _); [repeat split; apply incl_refl|].
  destruct (Pd.apply (fun v => le_int v LOW_THRESHOLD) _);
    [repeat split; apply incl_refl|].
  repeat split. apply add_all_incl.
Qed.

(** Within a session the zero set and the low set only grow. *)
Lemma session_sets_grow (actions : list action) :
  forall app d,
    incl (filtered_zeros app) (filtered_zeros (fst (session actions app d)))
    /\ incl (filtered_lows app) (filtered_lows (fst (session actions app d))).
Proof.
  induction actions as [|a rest IH]; intros app d; [split; apply incl_refl|].
  cbn [session].
  destruct (IH (self (after (handle a app d))) (files (after (handle a app d))))
    as [Hz Hl].
  assert (Hstep : incl (filtered_zeros app) (filtered_zeros (self (after (handle a app d))))
                  /\ incl (filtered_lows app) (filtered_lows (self (after (handle a app d))))).
  { destruct a; cbn [handle].
    - destruct (import_dno_keeps_tables app d picked) as (_ & -> & ->).
      split; apply incl_refl.
    - destruct (export_dno_keeps_tables app d) as (_ & -> & ->).
      split; apply incl_refl.
    - destruct (add_new_DNO_keeps_tables app d entry confirm) as (_ & -> & ->).
      split; apply incl_refl.
    - destruct (remove_from_DNO_keeps_tables app d entry confirm) as (_ & -> & ->).
      split; apply incl_refl.
    - destruct (upload_excel_keeps_sets app d picked) as (-> & ->).
      split; apply incl_refl.
    - destruct (find_zeros_grows app d) as (_ & H & ->).
      split; [exact H | apply incl_refl].
    - destruct (find_lows_grows app d) as (_ & -> & H).
      split; [apply incl_refl | exact H]. }
  destruct Hstep as [Hz' Hl'].
  split; eapply incl_tran; eassumption.
Qed.

(** The invariant of the inventory table: the banned-category test says
    no on every row. *)
Lemma upload_excel_keeps_clean (app : FiltererApp) (d : disk) (picked : option Pd.frame) :
  Forall (fun r => is_banned (Merchandise_Category r) = inr false) (df_inventory app) ->
  Forall (fun r => is_banned (Merchandise_Category r) = inr false)
         (df_inventory (self (after (upload_excel app d picked)))).
Proof.
  intros Hold. destruct picked as [new_df|]; [|exact Hold].
  destruct (forallb is_str (Pd.column Merchandise_Category new_df)) eqn:Htext.
  - rewrite (upload_excel_text _ _ _ Htext). cbn [after self df_inventory with_df_inventory].
    apply Forall_forall. intros r Hr. apply drop_duplicates_last_incl in Hr.
    apply in_app_or in Hr as [Hr|Hr].
    + rewrite Forall_forall in Hold. now apply Hold.
    + apply filter_In in Hr as [Hr Hallowed].
      rewrite forallb_forall in Htext.
      specialize (Htext _ (in_map Merchandise_Category _ _ Hr)).
      destruct (is_banned_cases (Merchandise_Category r)) as [(b & Hb & _)|[_ Hno]];
        [|congruence].
      unfold allowed in Hallowed. rewrite Hb in Hallowed. simpl in Hallowed.
      rewrite Hb. now destruct b.
  - rewrite (upload_excel_not_text _ _ _ Htext). exact Hold.
Qed.

Lemma session_keeps_clean (actions : list action) :
  forall app d,
    Forall (fun r => is_banned (Merchandise_Category r) = inr false) (df_inventory app) ->
    Forall (fun r => is_banned (Merchandise_Category r) = inr false)
           (df_inventory (fst (session actions app d))).
Proof.
  induction actions as [|a rest IH]; intros app d Hclean; [exact Hclean|].
  cbn [session]. apply IH.
  destruct a; cbn [handle].
  - now rewrite (proj1 (import_dno_keeps_tables app d picked)).
  - now rewrite (proj1 (export_dno_keeps_tables app d)).
  - now rewrite (proj1 (add_new_DNO_keeps_tables app d entry confirm)).
  - now rewrite (proj1 (remove_from_DNO_keeps_tables app d entry confirm)).
  - now apply upload_excel_keeps_clean.
  - now rewrite (proj1 (find_zeros_grows app d)).
  - now rewrite (proj1 (find_lows_grows app d)).
Qed.

(** C6.  Whatever the user does in a session, uploads included, every row
    of the inventory table has a text category of which no banned prefix is
    a prefix (as [startswith] compares: character by character, case
    included); so a row of category "Lamb-Ground" is never in the table. *)
Theorem no_banned_category_in_inventory (actions : list action) (d : disk) :
  Forall (fun r => is_banned (Merchandise_Category r) = inr false)
         (df_inventory (fst (session actions init d)))
  /\ Forall (fun r => exists cat,
                 Merchandise_Category r = VStr cat
                 /\ existsb (fun bad => String.prefix bad cat) BANNED_CATS = false)
            (df_inventory (fst (session actions init d)))
  /\ Forall (fun r => Merchandise_Category r <> VStr "Lamb-Ground")
            (df_inventory (fst (session actions init d)))
  /\ is_banned (VStr "Lamb-Ground") = inr true.
Proof.
  assert (H : Forall (fun r => is_banned (Merchandise_Category r) = inr false)
                     (df_inventory (fst (session actions init d))))
    by (apply session_keeps_clean; constructor).
  split; [exact H|]. split; [|split; [|reflexivity]].
  - eapply Forall_impl; [|exact H]. intros r Hr. cbv beta in Hr.
    destruct (Merchandise_Category r) as [z|q|cat|]; try discriminate.
    exists cat. split; [reflexivity|].
    unfold is_banned in Hr. rewrite any_startswith_text in Hr. congruence.
  - eapply Forall_impl; [|exact H]. intros r Hr Hcat. cbv beta in Hr.
    rewrite Hcat in Hr. discriminate.
Qed.

(** An upload with a banned row completes and drops that row; an upload
    with an empty category cell raises and leaves the table alone. *)
Lemma upload_excel_needs_text_categories_witness :
  (exists w, upload_excel init (Sample.dno []) (Some [Sample.apple; Sample.lamb]) = Returns w
             /\ df_inventory (self w) = [Sample.apple])
  /\ (exists w, upload_excel (Sample.loaded [Sample.pear]) (Sample.dno [])
                  (Some [Sample.apple; Sample.blank]) = Raises AttributeError w
                /\ df_inventory (self w) = [Sample.pear])
  /\ (exists w, upload_excel init (Sample.dno []) (Some [Sample.blank]) = Raises AttributeError w
                /\ df_inventory (self w) = []).
Proof.
  split; [|split].
  - destruct (proj1 (upload_excel_needs_text_categories init (Sample.dno [])
                       [Sample.apple; Sample.lamb]) eq_refl) as (w & Hw).
    exists w. split; [exact Hw|].
    assert (H : Returns w
                = upload_excel init (Sample.dno []) (Some [Sample.apple; Sample.lamb]))
      by (symmetry; exact Hw).
    vm_compute in H. injection H as ->. reflexivity.
  - exact (proj1 (proj2 (upload_excel_needs_text_categories (Sample.loaded [Sample.pear])
                           (Sample.dno []) [Sample.apple; Sample.blank])) eq_refl).
  - apply (proj2 (proj2 (upload_excel_needs_text_categories init (Sample.dno [])
                           [Sample.blank])) Sample.blank); [simpl; auto | reflexivity].
Defined.

(** The apple uploaded with count 0 and then with count 7: one row, with
    count 7. *)
Lemma upload_excel_last_wins_witness :
  exists w,
    upload_excel (Sample.loaded [Sample.apple; Sample.pear]) (Sample.dno [])
      (Some [Sample.apple_again]) = Returns w
    /\ df_inventory (self w) = [Sample.pear; Sample.apple_again]
    /\ filter (fun r => Pd.same_key (VInt 1001) (Article r)) (df_inventory (self w))
       = [Sample.apple_again].
Proof.
  destruct (upload_excel (Sample.loaded [Sample.apple; Sample.pear]) (Sample.dno [])
              (Some [Sample.apple_again])) as [w|e w] eqn:Hrun;
    [|vm_compute in Hrun; discriminate].
  exists w. split; [reflexivity|].
  destruct (upload_excel_last_wins _ _ _ _ Hrun) as (_ & Hlast & _).
  split.
  - vm_compute in Hrun. injection Hrun as <-. reflexivity.
  - rewrite Hlast. reflexivity.
Defined.

(** ** Classification *)

(** X21.  What [find_zeros] computes.  On an empty inventory table it
    shows the "No Data" alert and changes nothing.  On a table with rows,
    whose counts are numbers, and a DNO store whose identifiers [int()]
    accepts, it keeps exactly the rows whose count is at most 0 and whose
    article equals none of the integers read from the store, adds their
    articles to [filtered_zeros], and reports the size of the set; the
    rows of the store stay as they were.  Whatever happens in a session,
    [filtered_zeros] only grows. *)
Theorem find_zeros_selects :
  (forall actions app d,
      incl (filtered_zeros app) (filtered_zeros (fst (session actions app d))))
  /\
  (forall app d,
      find_zeros (with_df_inventory app []) d
      = Returns (World (with_df_inventory app []) d
                   [Alert "No Data" "Please upload Excel first."]))
  /\
  (forall app d dno_set,
      Pd.empty (df_inventory app) = false ->
      forallb numeric (Pd.column Inventory (df_inventory app)) = true ->
      traverse int_of_str (Sqlite.rows (dno_db d)) = inr dno_set ->
      let zeros :=
        fold_left set_add
          (Pd.column Article (filter (zero_row dno_set) (df_inventory app)))
          (filtered_zeros app) in
      let count := Z.of_nat (List.length zeros) in
      exists w,
        find_zeros app d = Returns w
        /\ self w = with_zeros app zeros count
        /\ shown w = [Alert "Success"
                        ("Found " ++ str_of_int count ++ " Zeros." ++ nl
                         ++ "Ready to send to SAP.")%string]
        /\ Sqlite.rows (dno_db (files w)) = Sqlite.rows (dno_db d)
        /\ incl (filtered_zeros app) zeros
        /\ (forall r, In r (df_inventory app) -> zero_row dno_set r = true ->
                      member zeros (Article r))
        /\ (forall v, In v zeros ->
                      In v (filtered_zeros app)
                      \/ exists r, In r (df_inventory app)
                                   /\ zero_row dno_set r = true /\ Article r = v)).
Proof.
  split; [intros actions app d; apply session_sets_grow|].
  split; [reflexivity|].
  intros app d dno_set Hrows Hnum Hdno zeros count.
  unfold find_zeros. rewrite Hrows.
  rewrite (numeric_le_int 0 _ Hnum).
  pose proof (fetch_dno_articles_result (dno_db d)) as Hres.
  pose proof (fetch_dno_articles_rows (dno_db d)) as Hkeep.
  destruct (fetch_dno_articles (dno_db d)) as [fetched conn]; simpl in Hres, Hkeep.
  rewrite Hres, Hdno.
  assert (Hsel :
    Pd.select
      (Pd.invert
         (Pd.isin
            (Pd.column Article
               (Pd.select (map (fun v => holds (le_int v 0))
                               (Pd.column Inventory (df_inventory app)))
                          (df_inventory app))) dno_set))
      (Pd.select (map (fun v => holds (le_int v 0))
                      (Pd.column Inventory (df_inventory app)))
                 (df_inventory app))
    = filter (zero_row dno_set) (df_inventory app)).
  { rewrite select_not_isin. unfold Pd.column. rewrite map_map, select_map.
    apply filter_filter. }
  rewrite Hsel. fold zeros. fold count.
  eexists; split; [reflexivity|]. simpl.
  repeat split; try assumption.
  - apply add_all_incl.
  - intros r Hr Hz. apply add_all_member. unfold Pd.column.
    apply in_map, filter_In. auto.
  - intros v Hv. apply add_all_origin in Hv as [Hv|Hv]; [auto|].
    right. unfold Pd.column in Hv. apply in_map_iff in Hv as (r & <- & Hr).
    apply filter_In in Hr as [Hr Hz]. exists r; auto.
Qed.

(** [find_zeros] on the inventory 1001 -> 0, 1002 -> 2, 1003 -> 5,
    1005 -> -3 with 1001 in the DNO store: 1005 alone is a zero. *)
Lemma find_zeros_selects_witness :
  Pd.empty (df_inventory (Sample.loaded Sample.zero_stock)) = false
  /\ forallb numeric (Pd.column Inventory (df_inventory (Sample.loaded Sample.zero_stock))) = true
  /\ traverse int_of_str (Sqlite.rows (dno_db (Sample.dno ["1001"]))) = inr [VInt 1001]
  /\ exists w, find_zeros (Sample.loaded Sample.zero_stock) (Sample.dno ["1001"]) = Returns w
               /\ filtered_zeros (self w) = [VInt 1005]
               /\ zero_count (self w) = 1.
Proof.
  split; [reflexivity|]. split; [reflexivity|]. split; [reflexivity|].
  destruct (proj2 (proj2 find_zeros_selects) (Sample.loaded Sample.zero_stock)
              (Sample.dno ["1001"]) [VInt 1001] eq_refl eq_refl eq_refl)
    as (w & Hw & Hself & _).
  exists w. split; [exact Hw|]. rewrite Hself. split; reflexivity.
Defined.

(** C1.  A member of the DNO store enters the zero set.  From a fresh
    start the clerk adds article 1001 to the DNO store, uploads a sheet
    whose Article column is text (1001 counted 0, 1002 counted 2, A-5
    counted 5) and asks for the zeros.  The specification selects no row.
    [find_zeros] reads the store as the integers [[1001]], text never
    equals an integer, and "1001" is counted as a zero, against the
    "Exclude DNO" step of [find_zeros] itself. *)
Lemma find_zeros_admits_dno_member :
  Spec.findZeros More.lettered_stock ["1001"] = []
  /\ Sqlite.rows (dno_db (snd (session
        [DoAdd "1001" true; DoUpload (Some More.lettered_stock); DoFindZeros]
        init (Sample.some_disk Sqlite.Absent))))
     = ["1001"]
  /\ filtered_zeros (fst (session
        [DoAdd "1001" true; DoUpload (Some More.lettered_stock); DoFindZeros]
        init (Sample.some_disk Sqlite.Absent)))
     = [VStr "1001"]
  /\ zero_count (fst (session
        [DoAdd "1001" true; DoUpload (Some More.lettered_stock); DoFindZeros]
        init (Sample.some_disk Sqlite.Absent)))
     = 1
  /\ handle DoFindZeros (Sample.loaded More.lettered_stock) (Sample.dno ["1001"])
     = Returns (World (with_zeros (Sample.loaded More.lettered_stock) [VStr "1001"] 1)
                      (Sample.dno ["1001"])
                      [Alert "Success" ("Found 1 Zeros." ++ nl ++ "Ready to send to SAP.")%string]).
Proof. repeat split. Qed.

Lemma both_map {A : Type} (p q : A -> bool) (l : list A) :
  Pd.both (map p l) (map q l) = map (fun x => p x && q x) l.
Proof.
  induction l as [|x l IH]; simpl; [reflexivity|]. now rewrite IH.
Qed.



(** ** From [str] back to [int] *)

Lemma digits_step (c : ascii) (rest : string) (acc d : Z) (seen : bool) :
  Ascii.eqb c "_" = false -> digit c = Some d ->
  digits (String c rest) acc seen = digits rest (10 * acc + d) true.
Proof. intros Hc Hd. cbn [digits]. now rewrite Hc, Hd. Qed.

Ltac digit_step :=
  erewrite digits_step by reflexivity;
  match goal with
  | |- context [Z.of_nat (nat_of_ascii ?c) - 48] =>
      let v := eval vm_compute in (Z.of_nat (nat_of_ascii c) - 48) in
      change (Z.of_nat (nat_of_ascii c) - 48) with v
  end.

Lemma digits_after (d : Decimal.uint) :
  forall p, digits (NilEmpty.string_of_uint d) (Z.pos p) true
            = Some (Z.pos (Pos.of_uint_acc d p)).
Proof.
  induction d; intros p; cbn [NilEmpty.string_of_uint Pos.of_uint_acc];
    try reflexivity;
    digit_step; rewrite <- IHd; f_equal; lia.
Qed.

Lemma digits_from_zero (d : Decimal.uint) :
  digits (NilEmpty.string_of_uint d) 0 true = Some (Z.of_N (Pos.of_uint d)).
Proof.
  induction d; cbn [NilEmpty.string_of_uint Pos.of_uint]; try reflexivity;
    digit_step; solve [exact IHd | apply digits_after].
Qed.

Lemma digits_unsigned (d : Decimal.uint) :
  digits (NilZero.string_of_uint d) 0 false = Some (Z.of_uint d).
Proof.
  unfold Z.of_uint. destruct d; try reflexivity;
    cbn [NilZero.string_of_uint NilEmpty.string_of_uint];
    digit_step; rewrite <- digits_from_zero;
    cbn [NilEmpty.string_of_uint]; now digit_step.
Qed.

Lemma int_isspace_isspace (c : ascii) : isspace c = false -> int_isspace c = false.
Proof.
  unfold isspace, int_isspace. cbv zeta.
  intros H. apply orb_false_iff in H as [H1 H2].
  apply orb_false_iff. split; [exact H1|].
  apply Z.eqb_neq. intros Heq. rewrite Heq in H2. discriminate.
Qed.

Lemma int_rstrip_no_space (s : string) :
  (forall c, In c (list_ascii_of_string s) -> isspace c = false) -> int_rstrip s = s.
Proof.
  induction s as [|c rest IH]; intros H; [reflexivity|].
  cbn [int_rstrip]. rewrite IH by (intros c' Hc'; apply H; simpl; auto).
  destruct rest; [|reflexivity].
  rewrite (int_isspace_isspace c) by (apply H; simpl; auto). reflexivity.
Qed.

Lemma int_lstrip_no_space (s : string) :
  (forall c, In c (list_ascii_of_string s) -> isspace c = false) -> int_lstrip s = s.
Proof.
  destruct s as [|c rest]; intros H; [reflexivity|].
  cbn [int_lstrip]. rewrite (int_isspace_isspace c) by (apply H; simpl; auto).
  reflexivity.
Qed.

Lemma unsigned_no_space (d : Decimal.uint) :
  forall c, In c (list_ascii_of_string (NilZero.string_of_uint d)) -> isspace c = false.
Proof.
  assert (H : forall d c, In c (list_ascii_of_string (NilEmpty.string_of_uint d)) ->
                          isspace c = false).
  { clear d. induction d; cbn [NilEmpty.string_of_uint list_ascii_of_string];
      intros c Hc; try destruct Hc as [<-|Hc]; try reflexivity; try (now apply IHd).
    destruct Hc. }
  destruct d; try apply H.
  intros c [<-|[]]. reflexivity.
Qed.

Lemma unsigned_first (d : Decimal.uint) :
  exists c rest, NilZero.string_of_uint d = String c rest
                 /\ Ascii.eqb c "+" = false /\ Ascii.eqb c "-" = false.
Proof.
  destruct d; cbn [NilZero.string_of_uint NilEmpty.string_of_uint];
    eexists _, _; repeat split.
Qed.

Lemma bounded_unsigned (d : Decimal.uint) :
  bounded_digits (NilZero.string_of_uint d)
  = if count_digits (NilZero.string_of_uint d) <=? int_max_str_digits
    then Some (Z.of_uint d) else None.
Proof. unfold bounded_digits. now rewrite digits_unsigned. Qed.

(** [int(str(n)) == n], as long as [str(n)] is within the limit of
    [int()]. *)
Lemma int_literal_str_of_int (z : Z) :
  int_literal (str_of_int z)
  = if count_digits (str_of_int z) <=? int_max_str_digits then Some z else None.
Proof.
  unfold str_of_int. rewrite <- (DecimalZ.of_to z) at 3.
  destruct (Z.to_int z) as [d|d]; cbn [NilZero.string_of_int Z.of_int].
  - unfold int_literal.
    rewrite int_lstrip_no_space, int_rstrip_no_space by apply unsigned_no_space.
    rewrite <- bounded_unsigned.
    destruct (unsigned_first d) as (c & rest & Hs & Hplus & Hminus).
    rewrite Hs.
    destruct c as [[] [] [] [] [] [] [] []]; try reflexivity; discriminate.
  - unfold int_literal.
    assert (Hspace : forall c,
               In c (list_ascii_of_string (String "-" (NilZero.string_of_uint d))) ->
               isspace c = false).
    { intros c [<-|Hc]; [reflexivity | now apply (unsigned_no_space d)]. }
    rewrite int_lstrip_no_space, int_rstrip_no_space by exact Hspace.
    change (option_map Z.opp (bounded_digits (NilZero.string_of_uint d))
            = if count_digits (NilZero.string_of_uint d) <=? int_max_str_digits
              then Some (- Z.of_uint d) else None).
    rewrite bounded_unsigned.
    now destruct (count_digits (NilZero.string_of_uint d) <=? int_max_str_digits).
Qed.


Lemma count_digits_length (s : string) :
  count_digits s <= Z.of_nat (String.length s).
Proof.
  induction s as [|c rest IH]; [cbn; lia|].
  cbn [count_digits String.length]. destruct (digit c); lia.
Qed.

(** A number whose text has at most 4300 characters is read back by
    [fetch_dno_articles] as the same integer. *)
Lemma stored_int_read_back (z : Z) :
  (String.length (str_of_int z) <= 4300)%nat ->
  int_of_str (identifier (VInt z)) = inr (VInt z).
Proof.
  intros Hlen. unfold int_of_str, identifier. cbn [article_text].
  rewrite int_literal_str_of_int.
  pose proof (count_digits_length (str_of_int z)) as Hcount.
  destruct (Z.leb_spec (count_digits (str_of_int z)) int_max_str_digits) as [_|Hgt];
    [reflexivity|]. unfold int_max_str_digits in Hgt. lia.
Qed.


(** The scenario of the specification, with numbers in the Article
    column: upload, then both classifications with 1001 in the DNO store. *)
Example scenario :
  let (app, d) :=
    session [DoUpload (Some [Sample.apple; Sample.lamb; Sample.pear; Sample.plum]);
             DoUpload (Some [Sample.apple_again; Sample.apple]);
             DoFindZeros; DoFindLows]
            init (Sample.dno ["1001"]) in
  df_inventory app = [Sample.pear; Sample.plum; Sample.apple]
  /\ filtered_zeros app = []
  /\ filtered_lows app = [VInt 1002].
Proof. vm_compute. repeat split. Qed.

(* ================================================================== *)
(** * Further properties of the handlers                               *)
(* ================================================================== *)

(** ** Single-article DNO management *)

Lemma lstrip_blank (s : string) :
  forallb isspace (list_ascii_of_string s) = true -> lstrip s = "".
Proof.
  induction s as [|c rest IH]; simpl; [reflexivity|].
  intros H. apply andb_true_iff in H as [Hc Hrest]. rewrite Hc. auto.
Qed.

Lemma strip_blank (s : string) :
  forallb isspace (list_ascii_of_string s) = true -> strip s = "".
Proof. intros H. unfold strip. now rewrite (lstrip_blank _ H). Qed.

(** The identifiers in the store after [add_new_DNO]. *)
Lemma add_new_DNO_rows (app : FiltererApp) (d : disk) (entry : string) (confirm : bool) :
  Sqlite.rows (dno_db (files (after (add_new_DNO app d entry confirm))))
  = if confirm && negb (String.eqb (strip entry) "")
    then if stored (strip entry) (dno_db d)
         then Sqlite.rows (dno_db d)
         else Sqlite.rows (dno_db d) ++ [strip entry]
    else Sqlite.rows (dno_db d).
Proof.
  unfold add_new_DNO, stored.
  destruct (String.eqb (strip entry) ""); [now rewrite andb_false_r|].
  destruct confirm; [|reflexivity].
  rewrite connect_create. cbn.
  destruct (existsb (String.eqb (strip entry)) (Sqlite.rows (dno_db d))); reflexivity.
Qed.

(** The identifiers in the store after [remove_from_DNO]. *)
Lemma remove_from_DNO_rows (app : FiltererApp) (d : disk) (entry : string) (confirm : bool) :
  Sqlite.rows (dno_db (files (after (remove_from_DNO app d entry confirm))))
  = if confirm && negb (String.eqb (strip entry) "")
    then filter (fun a => negb (String.eqb a (strip entry))) (Sqlite.rows (dno_db d))
    else Sqlite.rows (dno_db d).
Proof.
  unfold remove_from_DNO.
  destruct (String.eqb (strip entry) ""); [now rewrite andb_false_r|].
  destruct confirm; [|reflexivity].
  destruct (dno_db d); cbn; try reflexivity.
  destruct (0 <? _); reflexivity.
Qed.

(** X1.  A confirmed [add_new_DNO] with an entry that is not blank stores
    the stripped text once: it is appended when the store lacks it and the
    store stays as it is when it holds it already (a missing file or table
    is created); a store without duplicates stays so.  Either way the
    handler shows "Inserted" and counts one more change, so that adding the
    same article again leaves the store alone but counts again. *)
Theorem add_new_DNO_inserts (app : FiltererApp) (d : disk) (entry : string) :
  String.eqb (strip entry) "" = false ->
  exists w w',
    add_new_DNO app d entry true = Returns w
    /\ dno_db (files w)
       = Sqlite.Table (if stored (strip entry) (dno_db d)
                       then Sqlite.rows (dno_db d)
                       else Sqlite.rows (dno_db d) ++ [strip entry])
    /\ In (strip entry) (Sqlite.rows (dno_db (files w)))
    /\ (NoDup (Sqlite.rows (dno_db d)) -> NoDup (Sqlite.rows (dno_db (files w))))
    /\ shown w = [Alert "Inserted" ("Article " ++ strip entry ++ " added to DNO.")%string]
    /\ new_found_dnos (self w) = new_found_dnos app + 1
    /\ add_new_DNO (self w) (files w) entry true = Returns w'
    /\ dno_db (files w') = dno_db (files w)
    /\ new_found_dnos (self w') = new_found_dnos app + 2.
Proof.
  intros Hentry. unfold add_new_DNO. rewrite Hentry.
  rewrite connect_create. cbn [Sqlite.insert_or_ignore].
  eexists _, _. split; [reflexivity|]. cbn [files self shown with_dno_db dno_db].
  split; [reflexivity|].
  assert (Hin : In (strip entry)
                   (if existsb (String.eqb (strip entry)) (Sqlite.rows (dno_db d))
                    then Sqlite.rows (dno_db d)
                    else Sqlite.rows (dno_db d) ++ [strip entry])).
  { destruct (existsb _ _) eqn:H.
    - apply existsb_exists in H as (a & Ha & Heq).
      apply String.eqb_eq in Heq. now subst.
    - apply in_or_app. simpl. auto. }
  split; [exact Hin|]. split.
  { intros Hnodup. unfold stored. cbn [Sqlite.rows].
    destruct (existsb _ _) eqn:H; [exact Hnodup|].
    apply NoDup_app; [exact Hnodup | repeat constructor; simpl; tauto |].
    intros a Ha [<-|[]].
    apply not_true_iff_false in H. apply H. apply existsb_exists.
    exists (strip entry). split; [exact Ha | apply String.eqb_refl]. }
  split; [reflexivity|]. split; [reflexivity|].
  cbn [Sqlite.connect Sqlite.create_table Sqlite.insert_or_ignore].
  assert (Hagain : existsb (String.eqb (strip entry))
                     (if stored (strip entry) (dno_db d)
                      then Sqlite.rows (dno_db d)
                      else Sqlite.rows (dno_db d) ++ [strip entry]) = true).
  { apply existsb_exists. exists (strip entry).
    split; [exact Hin | apply String.eqb_refl]. }
  unfold stored in *. rewrite Hagain.
  split; [reflexivity|]. cbn [files self with_dno_db dno_db with_new_found_dnos new_found_dnos].
  split; [reflexivity | lia].
Qed.

Lemma add_new_DNO_inserts_witness :
  String.eqb (strip " 4711 ") "" = false
  /\ exists w,
       add_new_DNO init (Sample.dno ["1001"]) " 4711 " true = Returns w
       /\ dno_db (files w) = Sqlite.Table ["1001"; "4711"]
       /\ new_found_dnos (self w) = 1.
Proof.
  split; [reflexivity|].
  destruct (add_new_DNO_inserts init (Sample.dno ["1001"]) " 4711 " eq_refl)
    as (w & w' & Hrun & Hdb & _ & _ & _ & Hcount & _).
  exists w. split; [exact Hrun|]. split; [exact Hdb | exact Hcount].
Defined.

(** X2.  With an entry that is empty or all white space, or with the
    confirmation declined, [add_new_DNO] and [remove_from_DNO] do nothing:
    no alert, no change of state, and dno.db is neither created nor
    touched. *)
Theorem blank_or_declined_entry_does_nothing
        (app : FiltererApp) (d : disk) (entry : string) (confirm : bool) :
  forallb isspace (list_ascii_of_string entry) || negb confirm = true ->
  add_new_DNO app d entry confirm = Returns (World app d [])
  /\ remove_from_DNO app d entry confirm = Returns (World app d []).
Proof.
  intros H. unfold add_new_DNO, remove_from_DNO.
  destruct (forallb isspace (list_ascii_of_string entry)) eqn:Hblank.
  - rewrite (strip_blank _ Hblank). split; reflexivity.
  - simpl in H. apply negb_true_iff in H. subst confirm.
    destruct (String.eqb (strip entry) ""); split; reflexivity.
Qed.

Lemma blank_or_declined_entry_does_nothing_witness :
  add_new_DNO init (Sample.some_disk Sqlite.Absent) "   " true
  = Returns (World init (Sample.some_disk Sqlite.Absent) [])
  /\ remove_from_DNO init (Sample.dno ["1001"]) "1001" false
     = Returns (World init (Sample.dno ["1001"]) []).
Proof.
  split.
  - apply (blank_or_declined_entry_does_nothing init (Sample.some_disk Sqlite.Absent)
             "   " true). reflexivity.
  - apply (blank_or_declined_entry_does_nothing init (Sample.dno ["1001"])
             "1001" false). reflexivity.
Defined.

(** ** The store over a session *)

Lemma find_zeros_rows (app : FiltererApp) (d : disk) :
  Sqlite.rows (dno_db (files (after (find_zeros app d)))) = Sqlite.rows (dno_db d)
  /\ dst (files (after (find_zeros app d))) = dst d
  /\ new_found_dnos (self (after (find_zeros app d))) = new_found_dnos app
  /\ lights_bool (self (after (find_zeros app d))) = lights_bool app.
Proof.
  unfold find_zeros. destruct (Pd.empty (df_inventory app)); [repeat split|].
  destruct (Pd.apply _ _); [repeat split|].
  pose proof (fetch_dno_articles_rows (dno_db d)) as Hrows.
  destruct (fetch_dno_articles (dno_db d)) as [[e|dno_set] conn];
    simpl in Hrows; repeat split; exact Hrows.
Qed.

Lemma find_lows_files (app : FiltererApp) (d : disk) :
  files (after (find_lows app d)) = d
  /\ new_found_dnos (self (after (find_lows app d))) = new_found_dnos app
  /\ lights_bool (self (after (find_lows app d))) = lights_bool app.
Proof.
  unfold find_lows. destruct (Pd.empty (df_inventory app)); [repeat split|].
  destruct (Pd.apply (fun v => gt_int v 0) _); [repeat split|].
  destruct (Pd.apply (fun v => le_int v LOW_THRESHOLD) _); repeat split.
Qed.

Lemma upload_excel_files (app : FiltererApp) (d : disk) (picked : option Pd.frame) :
  files (after (upload_excel app d picked)) = d
  /\ new_found_dnos (self (after (upload_excel app d picked))) = new_found_dnos app.
Proof.
  destruct picked as [new_df|]; [|split; reflexivity].
  unfold upload_excel. destruct (Pd.apply _ _); split; reflexivity.
Qed.

Lemma export_dno_store (app : FiltererApp) (d : disk) :
  dno_db (files (after (export_dno app d))) = dno_db d.
Proof.
  unfold export_dno. destruct (negb (Sqlite.exists_ (dno_db d))); [reflexivity|].
  destruct (dst d); reflexivity.
Qed.

(** The identifiers in the store after [import_dno]. *)
Lemma import_dno_rows (app : FiltererApp) (d : disk) (picked : dno_source) :
  match picked with
  | DbFile content => dno_db (files (after (import_dno app d picked))) = content
  | Workbook (inr xls) =>
      exists added,
        Sqlite.rows (dno_db (files (after (import_dno app d picked))))
        = Sqlite.rows (dno_db d) ++ added
        /\ NoDup added
        /\ (forall t, In t added <->
                      ~ In t (Sqlite.rows (dno_db d))
                      /\ exists item, In item (flat_map Pd.first_ten_values xls)
                                      /\ identifier item = t)
  | _ => files (after (import_dno app d picked)) = d
  end.
Proof.
  destruct picked as [|content|[e|xls]|why]; try reflexivity.
  destruct (import_dno_workbook app d xls) as (added & Hrun & Hnodup & Hmem).
  cbv zeta in Hrun. rewrite Hrun. exists added.
  split; [reflexivity|]. split; [exact Hnodup | exact Hmem].
Qed.

Lemma stored_app (a : string) (ids more : list string) :
  existsb (String.eqb a) (ids ++ more)
  = existsb (String.eqb a) ids || existsb (String.eqb a) more.
Proof. apply existsb_app. Qed.

Lemma stored_in (a : string) (ids : list string) :
  existsb (String.eqb a) ids = true <-> In a ids.
Proof.
  rewrite existsb_exists. split.
  - intros (b & Hb & Heq). apply String.eqb_eq in Heq. now subst.
  - intros H. exists a. split; [exact H | apply String.eqb_refl].
Qed.

Lemma stored_filter_out (a b : string) (ids : list string) :
  existsb (String.eqb a) (filter (fun x => negb (String.eqb x b)) ids)
  = negb (String.eqb b a) && existsb (String.eqb a) ids.
Proof.
  apply eq_true_iff_eq. rewrite andb_true_iff, negb_true_iff, !stored_in, filter_In.
  rewrite negb_true_iff, String.eqb_neq, String.eqb_neq. split.
  - intros [Hin Hne]. split; [congruence | exact Hin].
  - intros [Hne Hin]. split; [exact Hin | congruence].
Qed.

(** One action, seen from a single identifier. *)
Lemma handle_presence (a : string) (act : action) (app : FiltererApp) (d : disk) :
  stored a (dno_db (files (after (handle act app d))))
  = presence a act (stored a (dno_db d)).
Proof.
  unfold stored. destruct act as [picked| |entry confirm|entry confirm|picked| |];
    cbn [handle presence].
  - pose proof (import_dno_rows app d picked) as H.
    destruct picked as [|content|[e|xls]|why]; cbn [presence].
    + now rewrite H.
    + now rewrite H.
    + now rewrite H.
    + destruct H as (added & -> & _ & Hmem). rewrite stored_app.
      apply eq_true_iff_eq. rewrite !orb_true_iff, !stored_in, existsb_exists.
      split.
      * intros [H|H]; [auto|]. right. apply Hmem in H as (_ & item & Hitem & <-).
        exists item. split; [exact Hitem | apply String.eqb_refl].
      * intros [H|(item & Hitem & Heq)]; [auto|].
        apply String.eqb_eq in Heq. subst a.
        destruct (in_dec string_dec (identifier item) (Sqlite.rows (dno_db d)));
          [auto|]. right. apply Hmem. eauto.
    + now rewrite H.
  - now rewrite export_dno_store.
  - rewrite add_new_DNO_rows. unfold names, stored.
    destruct (confirm && negb (String.eqb (strip entry) "")); cbn [andb]; [|reflexivity].
    destruct (String.eqb (strip entry) a) eqn:Ha.
    + apply String.eqb_eq in Ha. subst a.
      destruct (existsb _ (Sqlite.rows (dno_db d))) eqn:H; [exact H|].
      rewrite stored_app. simpl. rewrite String.eqb_refl. apply orb_true_r.
    + destruct (existsb (String.eqb (strip entry)) (Sqlite.rows (dno_db d)));
        [reflexivity|].
      rewrite stored_app. simpl. rewrite String.eqb_sym, Ha. now rewrite !orb_false_r.
  - rewrite remove_from_DNO_rows. unfold names.
    destruct (confirm && negb (String.eqb (strip entry) "")); cbn [andb]; [|reflexivity].
    rewrite stored_filter_out.
    destruct (String.eqb (strip entry) a); reflexivity.
  - now rewrite (proj1 (upload_excel_files app d picked)).
  - now rewrite (proj1 (find_zeros_rows app d)).
  - now rewrite (proj1 (find_lows_files app d)).
Qed.

(** X3.  Over any session the presence of an identifier in the DNO store
    depends on the actions that name it alone: it is there after a
    confirmed add of it, gone after a confirmed removal of it, there after
    a workbook import that holds it, as the chosen file has it after a
    [.db] import, and otherwise as before; uploads, classifications and
    exports never change it. *)
Theorem store_presence (actions : list action) (a : string) :
  forall app d,
    stored a (dno_db (snd (session actions app d)))
    = fold_left (fun present act => presence a act present) actions
                (stored a (dno_db d)).
Proof.
  induction actions as [|act rest IH]; intros app d; [reflexivity|].
  cbn [session fold_left]. rewrite IH. now rewrite handle_presence.
Qed.

(** X4.  A DNO store that this program made never comes to hold an
    identifier twice.  The store and the [.db] files that are imported
    are files of the program (the table is [dno (article TEXT UNIQUE)]):
    from a store without duplicates, and with no duplicates in the
    imported files, every session ends with a store without
    duplicates. *)
Theorem store_never_duplicates (actions : list action) :
  forall app d,
    NoDup (Sqlite.rows (dno_db d)) ->
    Forall (fun act => forall content,
                act = DoImport (DbFile content) -> NoDup (Sqlite.rows content))
           actions ->
    NoDup (Sqlite.rows (dno_db (snd (session actions app d)))).
Proof.
  induction actions as [|act rest IH]; intros app d Hd Hfiles; [exact Hd|].
  cbn [session]. inversion Hfiles as [|? ? Hact Hrest]; subst.
  apply IH; [|exact Hrest]. clear IH Hrest Hfiles.
  destruct act as [picked| |entry confirm|entry confirm|picked| |]; cbn [handle].
  - pose proof (import_dno_rows app d picked) as H.
    destruct picked as [|content|[e|xls]|why]; try (now rewrite H).
    + rewrite H. now apply Hact.
    + destruct H as (added & -> & Hadded & Hmem).
      apply NoDup_app; try assumption.
      intros t Ht Hin. apply Hmem in Hin. tauto.
  - now rewrite export_dno_store.
  - rewrite add_new_DNO_rows.
    destruct (confirm && negb (String.eqb (strip entry) "")); [|exact Hd].
    unfold stored. destruct (existsb _ _) eqn:H; [exact Hd|].
    apply NoDup_app; [exact Hd | repeat constructor; simpl; tauto |].
    intros t Ht [<-|[]]. apply stored_in in Ht. congruence.
  - rewrite remove_from_DNO_rows.
    destruct (confirm && negb (String.eqb (strip entry) "")); [|exact Hd].
    now apply NoDup_filter.
  - now rewrite (proj1 (upload_excel_files app d picked)).
  - now rewrite (proj1 (find_zeros_rows app d)).
  - now rewrite (proj1 (find_lows_files app d)).
Qed.

Lemma store_never_duplicates_witness :
  NoDup (Sqlite.rows (dno_db (snd (session
          [DoAdd "7" true; DoImport (Workbook (inr Sample.workbook));
           DoAdd " 123" true; DoImport (DbFile (Sqlite.Table ["8"; "9"]));
           DoAdd "9 " true; DoRemove "8" true; DoFindZeros]
          init (Sample.dno ["5"]))))).
Proof.
  apply store_never_duplicates.
  - simpl. repeat constructor. simpl. tauto.
  - repeat constructor; intros content H; try discriminate.
    injection H as <-. simpl. repeat constructor; simpl; intuition discriminate.
Defined.

(** ** Exceptions that leave a handler *)

Lemma apply_not_numeric (f : value -> exn + bool) (col : list value) :
  (forall v, f v = if numeric v then inr (holds (f v)) else inl TypeError) ->
  forallb numeric col = false ->
  Pd.apply f col = inl TypeError.
Proof.
  intros Hf H.
  assert (Hex : exists v, In v col /\ numeric v = false).
  { induction col as [|c l IH]; simpl in H; [discriminate|].
    destruct (numeric c) eqn:Hc; simpl in H.
    - destruct (IH H) as (v & Hin & Hv). exists v. simpl. auto.
    - exists c. simpl. auto. }
  destruct Hex as (v & Hin & Hv).
  assert (Hraise : f v = inl TypeError) by (rewrite Hf, Hv; reflexivity).
  destruct (traverse_raises f _ v TypeError Hin Hraise) as (e & He).
  unfold Pd.apply. rewrite He. f_equal.
  apply traverse_inl in He as (v' & _ & Hv'). rewrite Hf in Hv'.
  destruct (numeric v'); congruence.
Qed.

Lemma le_int_numeric (n : Z) (v : value) :
  le_int v n = if numeric v then inr (holds (le_int v n)) else inl TypeError.
Proof. destruct v; reflexivity. Qed.

Lemma gt_int_numeric (n : Z) (v : value) :
  gt_int v n = if numeric v then inr (holds (gt_int v n)) else inl TypeError.
Proof. destruct v; reflexivity. Qed.

Lemma readable_read (ids : list string) :
  forallb literal ids = true -> exists dno_set, traverse int_of_str ids = inr dno_set.
Proof.
  induction ids as [|t ids IH]; simpl; [eauto|].
  intros H. apply andb_true_iff in H as [Ht Hids].
  destruct (IH Hids) as (dno_set & ->).
  unfold literal in Ht. unfold int_of_str. destruct (int_literal t); [eauto | discriminate].
Qed.

Lemma unreadable_read (ids : list string) :
  forallb literal ids = false -> exists msg, traverse int_of_str ids = inl (ValueError msg).
Proof.
  induction ids as [|t ids IH]; simpl; [discriminate|].
  intros H. unfold literal at 1 in H. unfold int_of_str at 1.
  destruct (int_literal t); [|eauto].
  simpl in H. destruct (IH H) as (msg & ->). eauto.
Qed.

Lemma read_readable (ids : list string) (dno_set : list value) :
  traverse int_of_str ids = inr dno_set -> forallb literal ids = true.
Proof.
  intros H. destruct (forallb literal ids) eqn:Hl; [reflexivity|].
  destruct (unreadable_read _ Hl) as (msg & Hmsg). congruence.
Qed.

(** [find_zeros] when everything can be read. *)
Lemma find_zeros_run (app : FiltererApp) (d : disk) (dno_set : list value) :
  Pd.empty (df_inventory app) = false ->
  forallb numeric (Pd.column Inventory (df_inventory app)) = true ->
  traverse int_of_str (Sqlite.rows (dno_db d)) = inr dno_set ->
  find_zeros app d
  = Returns (World
      (with_zeros app
         (fold_left set_add
            (Pd.column Article (filter (zero_row dno_set) (df_inventory app)))
            (filtered_zeros app))
         (Z.of_nat (List.length
            (fold_left set_add
               (Pd.column Article (filter (zero_row dno_set) (df_inventory app)))
               (filtered_zeros app)))))
      (with_dno_db d (snd (fetch_dno_articles (dno_db d))))
      [Alert "Success"
         ("Found "
          ++ str_of_int (Z.of_nat (List.length
               (fold_left set_add
                  (Pd.column Article (filter (zero_row dno_set) (df_inventory app)))
                  (filtered_zeros app))))
          ++ " Zeros." ++ nl ++ "Ready to send to SAP.")%string]).
Proof.
  intros Hrows Hnum Hdno. unfold find_zeros. rewrite Hrows.
  rewrite (numeric_le_int 0 _ Hnum).
  pose proof (fetch_dno_articles_result (dno_db d)) as Hres.
  destruct (fetch_dno_articles (dno_db d)) as [fetched conn]; simpl in Hres.
  rewrite Hres, Hdno. cbn [snd].
  assert (Hsel :
    Pd.select
      (Pd.invert
         (Pd.isin
            (Pd.column Article
               (Pd.select (map (fun v => holds (le_int v 0))
                               (Pd.column Inventory (df_inventory app)))
                          (df_inventory app))) dno_set))
      (Pd.select (map (fun v => holds (le_int v 0))
                      (Pd.column Inventory (df_inventory app)))
                 (df_inventory app))
    = filter (zero_row dno_set) (df_inventory app)).
  { rewrite select_not_isin. unfold Pd.column. rewrite map_map, select_map.
    apply filter_filter. }
  rewrite Hsel. reflexivity.
Qed.

Lemma find_zeros_not_numeric (app : FiltererApp) (d : disk) :
  Pd.empty (df_inventory app) = false ->
  forallb numeric (Pd.column Inventory (df_inventory app)) = false ->
  find_zeros app d = Raises TypeError (World app d []).
Proof.
  intros Hrows Hnum. unfold find_zeros. rewrite Hrows.
  now rewrite (apply_not_numeric _ _ (le_int_numeric 0) Hnum).
Qed.

Lemma find_zeros_unreadable (app : FiltererApp) (d : disk) :
  Pd.empty (df_inventory app) = false ->
  forallb numeric (Pd.column Inventory (df_inventory app)) = true ->
  readable (dno_db d) = false ->
  exists msg,
    find_zeros app d
    = Raises (ValueError msg)
        (World app (with_dno_db d (snd (fetch_dno_articles (dno_db d)))) []).
Proof.
  intros Hrows Hnum Hread. unfold find_zeros. rewrite Hrows.
  rewrite (numeric_le_int 0 _ Hnum).
  pose proof (fetch_dno_articles_result (dno_db d)) as Hres.
  destruct (fetch_dno_articles (dno_db d)) as [fetched conn]; simpl in Hres.
  destruct (unreadable_read _ Hread) as (msg & Hmsg).
  rewrite Hres, Hmsg. eauto.
Qed.

Lemma find_lows_run (app : FiltererApp) (d : disk) :
  Pd.empty (df_inventory app) = false ->
  forallb numeric (Pd.column Inventory (df_inventory app)) = true ->
  find_lows app d
  = Returns (World
      (with_lows app
         (fold_left set_add (Pd.column Article (filter low_row (df_inventory app)))
                    (filtered_lows app)))
      d
      [Alert "Success"
         ("Found "
          ++ str_of_int (Z.of_nat (List.length
               (fold_left set_add
                  (Pd.column Article (filter low_row (df_inventory app)))
                  (filtered_lows app))))
          ++ " Lows")%string]).
Proof.
  intros Hrows Hnum. unfold find_lows. rewrite Hrows.
  rewrite (numeric_gt_int 0 _ Hnum), (numeric_le_int LOW_THRESHOLD _ Hnum).
  rewrite both_map. unfold Pd.column. rewrite map_map, select_map.
  reflexivity.
Qed.

Lemma find_lows_not_numeric (app : FiltererApp) (d : disk) :
  Pd.empty (df_inventory app) = false ->
  forallb numeric (Pd.column Inventory (df_inventory app)) = false ->
  find_lows app d = Raises TypeError (World app d []).
Proof.
  intros Hrows Hnum. unfold find_lows. rewrite Hrows.
  now rewrite (apply_not_numeric _ _ (gt_int_numeric 0) Hnum).
Qed.



(** X6.  On an inventory table with rows, [find_zeros] completes exactly
    when every inventory count is a number and every identifier in the DNO
    store is an integer literal.  One identifier that is none, with
    numbers for counts, makes it raise [ValueError]: nothing is shown, the
    state is as before, and dno.db has gained at most its table. *)
Theorem find_zeros_completes_iff (app : FiltererApp) (d : disk) :
  Pd.empty (df_inventory app) = false ->
  ((exists w, find_zeros app d = Returns w)
   <-> forallb numeric (Pd.column Inventory (df_inventory app))
       && readable (dno_db d) = true)
  /\ (forallb numeric (Pd.column Inventory (df_inventory app)) = true ->
      readable (dno_db d) = false ->
      exists msg w,
        find_zeros app d = Raises (ValueError msg) w
        /\ self w = app /\ shown w = []
        /\ Sqlite.rows (dno_db (files w)) = Sqlite.rows (dno_db d)
        /\ dst (files w) = dst d).
Proof.
  intros Hrows. split.
  - destruct (forallb numeric (Pd.column Inventory (df_inventory app))) eqn:Hnum.
    + destruct (readable (dno_db d)) eqn:Hread; cbn [andb].
      * destruct (readable_read _ Hread) as (dno_set & Hdno).
        rewrite (find_zeros_run _ _ _ Hrows Hnum Hdno). split; eauto.
      * destruct (find_zeros_unreadable _ _ Hrows Hnum Hread) as (msg & ->).
        split; [intros (w & Hw); discriminate | discriminate].
    + rewrite (find_zeros_not_numeric _ _ Hrows Hnum). cbn [andb].
      split; [intros (w & Hw); discriminate | discriminate].
  - intros Hnum Hread.
    destruct (find_zeros_unreadable _ _ Hrows Hnum Hread) as (msg & ->).
    eexists _, _. split; [reflexivity|]. repeat split.
    apply fetch_dno_articles_rows.
Qed.

Lemma find_zeros_completes_iff_witness :
  Pd.empty (df_inventory (Sample.loaded Sample.zero_stock)) = false
  /\ (exists w, find_zeros (Sample.loaded Sample.zero_stock) (Sample.dno ["1001"; " 7 "])
                = Returns w)
  /\ exists msg w,
       find_zeros (Sample.loaded Sample.zero_stock) (Sample.dno ["1001"; "12a"])
       = Raises (ValueError msg) w
       /\ self w = Sample.loaded Sample.zero_stock.
Proof.
  split; [reflexivity|]. split.
  - apply (proj1 (find_zeros_completes_iff (Sample.loaded Sample.zero_stock)
                    (Sample.dno ["1001"; " 7 "]) eq_refl)). reflexivity.
  - destruct (proj2 (find_zeros_completes_iff (Sample.loaded Sample.zero_stock)
                       (Sample.dno ["1001"; "12a"]) eq_refl) eq_refl eq_refl)
      as (msg & w & Hrun & Hself & _).
    exists msg, w. split; [exact Hrun | exact Hself].
Defined.

(** ** Classifying twice *)

Lemma eqb_refl_notna (v : value) : Pd.isna v = false -> Py.eqb v v = true.
Proof.
  destruct v; simpl; intros H; try discriminate.
  - apply Qeq_bool_iff. reflexivity.
  - apply Qeq_bool_iff. reflexivity.
  - apply String.eqb_refl.
Qed.

Lemma add_all_nothing_new (xs s : list value) :
  (forall x, In x xs -> contains s x = true) -> fold_left set_add xs s = s.
Proof.
  induction xs as [|x xs IH]; intros H; [reflexivity|].
  cbn [fold_left]. unfold set_add at 2. rewrite (H x) by (simpl; auto).
  apply IH. intros y Hy. apply H. simpl. auto.
Qed.

Lemma add_all_again (xs s : list value) :
  forallb (fun v => negb (Pd.isna v)) xs = true ->
  fold_left set_add xs (fold_left set_add xs s) = fold_left set_add xs s.
Proof.
  intros Hna. apply add_all_nothing_new. intros x Hx.
  rewrite forallb_forall in Hna. specialize (Hna x Hx).
  apply negb_true_iff in Hna.
  destruct (add_all_member xs s x Hx) as [Hin|Hc]; [|exact Hc].
  unfold contains. apply existsb_exists. exists x.
  split; [exact Hin | now apply eqb_refl_notna].
Qed.

Lemma forallb_filter_column (p : row -> bool) (df : Pd.frame) :
  forallb (fun v => negb (Pd.isna v)) (Pd.column Article df) = true ->
  forallb (fun v => negb (Pd.isna v)) (Pd.column Article (filter p df)) = true.
Proof.
  unfold Pd.column. rewrite !forallb_forall. intros H v Hv.
  apply in_map_iff in Hv as (r & <- & Hr). apply filter_In in Hr as [Hr _].
  apply H. now apply in_map.
Qed.

Lemma fetch_dno_articles_again (db : Sqlite.file) :
  snd (fetch_dno_articles (snd (fetch_dno_articles db))) = snd (fetch_dno_articles db).
Proof. destruct db; reflexivity. Qed.

(** X7.  Classifying again finds nothing new: when no Article cell of the
    table is empty, a [find_zeros] (or [find_lows]) that has completed,
    triggered again at once, completes with the same set, the same count
    and the same alert, and leaves the disk as it is. *)
Theorem classification_twice (app : FiltererApp) (d : disk) (w : world) :
  forallb (fun v => negb (Pd.isna v)) (Pd.column Article (df_inventory app)) = true ->
  (find_zeros app d = Returns w -> find_zeros (self w) (files w) = Returns w)
  /\ (find_lows app d = Returns w -> find_lows (self w) (files w) = Returns w).
Proof.
  intros Hna. split; intros Hrun.
  - destruct (Pd.empty (df_inventory app)) eqn:Hrows.
    { unfold find_zeros in Hrun. rewrite Hrows in Hrun. injection Hrun as <-.
      unfold find_zeros. cbn [self]. now rewrite Hrows. }
    destruct (forallb numeric (Pd.column Inventory (df_inventory app))) eqn:Hnum;
      [|rewrite (find_zeros_not_numeric _ _ Hrows Hnum) in Hrun; discriminate].
    destruct (readable (dno_db d)) eqn:Hread.
    + destruct (readable_read _ Hread) as (dno_set & Hdno).
      rewrite (find_zeros_run _ _ _ Hrows Hnum Hdno) in Hrun. injection Hrun as <-.
      cbn [self files].
      rewrite (find_zeros_run _ _ dno_set); cbn [df_inventory with_zeros filtered_zeros
                                                  with_dno_db dno_db].
      * rewrite fetch_dno_articles_again.
        rewrite add_all_again by now apply forallb_filter_column.
        reflexivity.
      * exact Hrows.
      * exact Hnum.
      * now rewrite fetch_dno_articles_rows.
    + destruct (find_zeros_unreadable _ _ Hrows Hnum Hread) as (msg & Hmsg).
      congruence.
  - destruct (Pd.empty (df_inventory app)) eqn:Hrows.
    { unfold find_lows in Hrun. rewrite Hrows in Hrun. injection Hrun as <-.
      unfold find_lows. cbn [self]. now rewrite Hrows. }
    destruct (forallb numeric (Pd.column Inventory (df_inventory app))) eqn:Hnum;
      [|rewrite (find_lows_not_numeric _ _ Hrows Hnum) in Hrun; discriminate].
    rewrite (find_lows_run _ _ Hrows Hnum) in Hrun. injection Hrun as <-.
    cbn [self files].
    rewrite find_lows_run; cbn [df_inventory with_lows filtered_lows]; try assumption.
    rewrite add_all_again by now apply forallb_filter_column.
    reflexivity.
Qed.

Lemma classification_twice_witness :
  exists w w',
    find_zeros (Sample.loaded Sample.zero_stock) (Sample.dno ["1001"]) = Returns w
    /\ find_zeros (self w) (files w) = Returns w
    /\ filtered_zeros (self w) = [VInt 1005]
    /\ find_lows (Sample.loaded Sample.low_stock) (Sample.dno []) = Returns w'
    /\ find_lows (self w') (files w') = Returns w'.
Proof.
  eexists _, _.
  split; [reflexivity|]. split.
  - apply (proj1 (classification_twice (Sample.loaded Sample.zero_stock)
                    (Sample.dno ["1001"]) _ eq_refl)). reflexivity.
  - split; [reflexivity|]. split; [reflexivity|].
    apply (proj2 (classification_twice (Sample.loaded Sample.low_stock)
                    (Sample.dno []) _ eq_refl)). reflexivity.
Defined.

(** ** Uploading twice *)

Lemma same_key_refl (v : value) : Pd.same_key v v = true.
Proof.
  destruct v; simpl; try reflexivity.
  - apply Qeq_bool_iff. reflexivity.
  - apply Qeq_bool_iff. reflexivity.
  - apply String.eqb_refl.
Qed.

(** [drop_duplicates] over two frames, one after the other: of the first
    frame the rows stay whose key the second does not carry. *)
Lemma drop_duplicates_last_app (a b : Pd.frame) :
  Pd.drop_duplicates_last Article (a ++ b)
  = filter (fun r => negb (existsb (fun r' => Pd.same_key (Article r) (Article r')) b))
           (Pd.drop_duplicates_last Article a)
    ++ Pd.drop_duplicates_last Article b.
Proof.
  induction a as [|r a IH]; [reflexivity|].
  cbn [app Pd.drop_duplicates_last]. rewrite existsb_app.
  destruct (existsb (fun r' => Pd.same_key (Article r) (Article r')) a) eqn:Ha;
    cbn [orb]; [exact IH|].
  destruct (existsb (fun r' => Pd.same_key (Article r) (Article r')) b) eqn:Hb;
    cbn [filter]; rewrite Hb; cbn [negb]; rewrite IH; reflexivity.
Qed.

Lemma drop_duplicates_last_fixed (df : Pd.frame) :
  ForallOrdPairs (fun r r' => Pd.same_key (Article r) (Article r') = false) df ->
  Pd.drop_duplicates_last Article df = df.
Proof.
  induction 1 as [|r rest Hr _ IH]; [reflexivity|].
  cbn [Pd.drop_duplicates_last]. rewrite IH.
  assert (H : existsb (fun r' => Pd.same_key (Article r) (Article r')) rest = false).
  { apply not_true_iff_false. intros H. apply existsb_exists in H as (r' & Hr' & Hk).
    rewrite Forall_forall in Hr. rewrite (Hr r' Hr') in Hk. discriminate. }
  now rewrite H.
Qed.

Lemma filter_none {A : Type} (p : A -> bool) (l : list A) :
  (forall x, In x l -> p x = false) -> filter p l = [].
Proof.
  induction l as [|x l IH]; intros H; [reflexivity|].
  cbn [filter]. rewrite (H x) by (simpl; auto).
  apply IH. intros y Hy. apply H. simpl. auto.
Qed.

Lemma filter_again {A : Type} (p : A -> bool) (l : list A) :
  filter p (filter p l) = filter p l.
Proof.
  rewrite filter_filter. apply filter_ext. intros x. now destruct (p x).
Qed.

(** Merging the same rows in a second time changes nothing. *)
Lemma merge_again (old kept : Pd.frame) :
  Pd.drop_duplicates_last Article
    (Pd.drop_duplicates_last Article (old ++ kept) ++ kept)
  = Pd.drop_duplicates_last Article (old ++ kept).
Proof.
  rewrite (drop_duplicates_last_app (Pd.drop_duplicates_last Article (old ++ kept))).
  rewrite (drop_duplicates_last_fixed _ (drop_duplicates_last_distinct (old ++ kept))).
  rewrite (drop_duplicates_last_app old kept).
  rewrite filter_app, filter_again.
  rewrite (filter_none _ (Pd.drop_duplicates_last Article kept)).
  - now rewrite app_nil_r.
  - intros r Hr. apply drop_duplicates_last_incl in Hr.
    apply negb_false_iff. apply existsb_exists. exists r.
    split; [exact Hr | apply same_key_refl].
Qed.

(** *** The department lights *)

Lemma light_up_keys (lights : list (string * bool)) (dep : value) :
  map fst (light_up lights dep) = map fst lights.
Proof.
  unfold light_up. destruct (group_of dep departments) as [key|]; [|reflexivity].
  rewrite map_map. apply map_ext. intros l. now destruct (String.eqb (fst l) key).
Qed.

Lemma light_up_lit (key : string) (lights : list (string * bool)) (dep : value) :
  lit key (light_up lights dep)
  = lit key lights
    || (match group_of dep departments with
        | Some k => String.eqb k key
        | None => false
        end
        && existsb (fun l => String.eqb (fst l) key) lights).
Proof.
  unfold light_up, lit. destruct (group_of dep departments) as [k|];
    [|now rewrite orb_false_r].
  induction lights as [|l lights IH]; [now rewrite andb_false_r|].
  cbn [map existsb]. rewrite IH. clear IH.
  destruct (String.eqb (fst l) k) eqn:Hl; cbn [fst snd].
  - apply String.eqb_eq in Hl. rewrite <- Hl.
    destruct (String.eqb (fst l) key) eqn:Hk; cbn [andb orb].
    + now rewrite !orb_true_r.
    + reflexivity.
  - destruct (String.eqb k key) eqn:Hk; cbn [andb].
    + apply String.eqb_eq in Hk. subst k. rewrite Hl. cbn [andb orb]. reflexivity.
    + now rewrite !orb_false_r.
Qed.

Lemma light_up_all_keys (lights : list (string * bool)) (deps : list value) :
  map fst (fold_left light_up deps lights) = map fst lights.
Proof.
  revert lights. induction deps as [|dep deps IH]; intros lights; [reflexivity|].
  cbn [fold_left]. now rewrite IH, light_up_keys.
Qed.

Lemma has_key_keys (key : string) (lights : list (string * bool)) :
  existsb (fun l => String.eqb (fst l) key) lights
  = existsb (fun k => String.eqb k key) (map fst lights).
Proof.
  induction lights as [|l lights IH]; simpl; [reflexivity | now rewrite IH].
Qed.

Lemma light_up_all_lit (key : string) (deps : list value) :
  forall lights,
    lit key (fold_left light_up deps lights)
    = lit key lights
      || (existsb (fun dep => match group_of dep departments with
                              | Some k => String.eqb k key
                              | None => false
                              end) deps
          && existsb (fun l => String.eqb (fst l) key) lights).
Proof.
  induction deps as [|dep deps IH]; intros lights;
    [cbn; now rewrite orb_false_r|].
  cbn [fold_left existsb]. rewrite IH, light_up_lit.
  rewrite (has_key_keys key (light_up lights dep)), light_up_keys, <- has_key_keys.
  destruct (lit key lights), (existsb (fun l => String.eqb (fst l) key) lights),
    (match group_of dep departments with Some k => String.eqb k key | None => false end),
    (existsb _ deps); reflexivity.
Qed.

(** The lights after a column of departments, light by light. *)
Lemma light_up_all (deps : list value) :
  forall lights,
    fold_left light_up deps lights
    = map (fun l =>
             if existsb (fun dep => match group_of dep departments with
                                    | Some k => String.eqb (fst l) k
                                    | None => false
                                    end) deps
             then (fst l, true) else l) lights.
Proof.
  induction deps as [|dep deps IH]; intros lights.
  - cbn. now rewrite map_id.
  - cbn [fold_left existsb]. rewrite IH. unfold light_up.
    destruct (group_of dep departments) as [k|]; [|reflexivity].
    rewrite map_map. apply map_ext. intros l.
    destruct (String.eqb (fst l) k) eqn:Hk; cbn [fst orb]; [|reflexivity].
    now destruct (existsb _ deps).
Qed.

Lemma light_up_all_again (deps : list value) (lights : list (string * bool)) :
  fold_left light_up deps (fold_left light_up deps lights)
  = fold_left light_up deps lights.
Proof.
  rewrite !light_up_all, map_map. apply map_ext. intros l.
  destruct (existsb (fun dep => match group_of dep departments with
                                | Some k => String.eqb (fst l) k
                                | None => false
                                end) deps) eqn:H; cbn [fst]; rewrite H; reflexivity.
Qed.

(** X8.  Uploading the same sheet a second time changes nothing: the
    second upload ends as the first did (completing, or raising the same
    exception) and leaves the inventory table, the lights and all the rest
    of the state as the first upload left them. *)
Theorem upload_excel_twice (app : FiltererApp) (d : disk) (picked : option Pd.frame) :
  upload_excel (self (after (upload_excel app d picked)))
               (files (after (upload_excel app d picked))) picked
  = upload_excel app d picked.
Proof.
  destruct picked as [new_df|]; [|reflexivity].
  destruct (forallb is_str (Pd.column Merchandise_Category new_df)) eqn:Htext.
  - rewrite (upload_excel_text app d new_df Htext). cbn [after self files].
    rewrite (upload_excel_text _ d new_df Htext).
    cbn [with_df_inventory with_lights_bool df_inventory lights_bool
         filtered_zeros filtered_lows zero_count new_found_dnos].
    now rewrite light_up_all_again, merge_again.
  - rewrite (upload_excel_not_text app d new_df Htext). cbn [after self files].
    rewrite (upload_excel_not_text _ d new_df Htext).
    cbn [with_lights_bool df_inventory lights_bool
         filtered_zeros filtered_lows zero_count new_found_dnos].
    now rewrite light_up_all_again.
Qed.

Lemma dno_handlers_keep_lights (act : action) (app : FiltererApp) (d : disk) :
  on_dno_store act = true ->
  lights_bool (self (after (handle act app d))) = lights_bool app.
Proof.
  destruct act as [picked| |entry confirm|entry confirm|picked| |];
    try discriminate; intros _; cbn [handle].
  - destruct picked as [|content|[e|xls]|why]; try reflexivity.
    destruct (import_dno_workbook app d xls) as (added & Hrun & _).
    cbv zeta in Hrun. rewrite Hrun.
    destruct (0 <? Z.of_nat (List.length added)); reflexivity.
  - unfold export_dno. destruct (negb _); [reflexivity|]. destruct (dst d); reflexivity.
  - unfold add_new_DNO. destruct (String.eqb _ _); [reflexivity|].
    destruct confirm; [|reflexivity]. rewrite connect_create. reflexivity.
  - unfold remove_from_DNO. destruct (String.eqb _ _); [reflexivity|].
    destruct confirm; [|reflexivity].
    destruct (dno_db d); cbn; try reflexivity. destruct (0 <? _); reflexivity.
Qed.

Lemma upload_excel_lights (app : FiltererApp) (d : disk) (picked : option Pd.frame) :
  lights_bool (self (after (upload_excel app d picked)))
  = match picked with
    | Some new_df => fold_left light_up (Pd.column Department new_df) (lights_bool app)
    | None => lights_bool app
    end.
Proof.
  destruct picked as [new_df|]; [|reflexivity].
  unfold upload_excel. destruct (Pd.apply _ _); reflexivity.
Qed.

(** X9.  The lights of a session: their keys never change, a light that
    is on stays on whatever the user does, and only [upload_excel] turns
    lights on. *)
Theorem lights_only_turn_on (actions : list action) :
  forall app d key,
    map fst (lights_bool (fst (session actions app d))) = map fst (lights_bool app)
    /\ (lit key (lights_bool app) = true ->
        lit key (lights_bool (fst (session actions app d))) = true)
    /\ (forallb (fun act => match act with DoUpload _ => false | _ => true end) actions
        = true ->
        lights_bool (fst (session actions app d)) = lights_bool app).
Proof.
  induction actions as [|act rest IH]; intros app d key;
    [repeat split; auto|].
  cbn [session forallb].
  destruct (IH (self (after (handle act app d))) (files (after (handle act app d))) key)
    as (Hkeys & Hlit & Hsame).
  assert (Hstep : map fst (lights_bool (self (after (handle act app d))))
                  = map fst (lights_bool app)
                  /\ (lit key (lights_bool app) = true ->
                      lit key (lights_bool (self (after (handle act app d)))) = true)
                  /\ (match act with DoUpload _ => false | _ => true end = true ->
                      lights_bool (self (after (handle act app d))) = lights_bool app)).
  { destruct act as [picked| |entry confirm|entry confirm|picked| |].
    - rewrite (dno_handlers_keep_lights (DoImport picked) app d eq_refl).
      repeat split; auto.
    - rewrite (dno_handlers_keep_lights DoExport app d eq_refl).
      repeat split; auto.
    - rewrite (dno_handlers_keep_lights (DoAdd entry confirm) app d eq_refl).
      repeat split; auto.
    - rewrite (dno_handlers_keep_lights (DoRemove entry confirm) app d eq_refl).
      repeat split; auto.
    - cbn [handle]. rewrite upload_excel_lights.
      destruct picked as [new_df|]; [|repeat split; auto].
      split; [apply light_up_all_keys|]. split; [|discriminate].
      intros Hon. rewrite light_up_all_lit, Hon. reflexivity.
    - cbn [handle]. destruct (find_zeros_rows app d) as (_ & _ & _ & ->).
      repeat split; auto.
    - cbn [handle]. destruct (find_lows_files app d) as (_ & _ & ->).
      repeat split; auto. }
  destruct Hstep as (Hkeys' & Hlit' & Hsame').
  split; [congruence|]. split; [auto|].
  intros H. apply andb_true_iff in H as [Hact Hrest].
  rewrite (Hsame Hrest). auto.
Qed.

Lemma lights_only_turn_on_witness :
  lit "Meat" (lights_bool (with_lights_bool init [("Grocery", false); ("Meat", true)])) = true
  /\ lit "Meat" (lights_bool (fst (session
         [DoFindLows; DoUpload (Some [Sample.apple]); DoAdd "12" true]
         (with_lights_bool init [("Grocery", false); ("Meat", true)])
         (Sample.dno [])))) = true
  /\ lights_bool (fst (session [DoFindZeros; DoAdd "12" true; DoExport]
                               init (Sample.dno [])))
     = lights_bool init.
Proof.
  split; [reflexivity|]. split.
  - apply (proj1 (proj2 (lights_only_turn_on
             [DoFindLows; DoUpload (Some [Sample.apple]); DoAdd "12" true]
             (with_lights_bool init [("Grocery", false); ("Meat", true)])
             (Sample.dno []) "Meat"))). reflexivity.
  - apply (proj2 (proj2 (lights_only_turn_on [DoFindZeros; DoAdd "12" true; DoExport]
             init (Sample.dno []) "Meat"))). reflexivity.
Defined.

Lemma existsb_column {A : Type} (p : A -> bool) (name : row -> A) (df : Pd.frame) :
  existsb p (Pd.column name df) = existsb (fun r => p (name r)) df.
Proof.
  unfold Pd.column. induction df as [|r df IH]; simpl; [reflexivity | now rewrite IH].
Qed.

(** X10.  After [upload_excel] on a sheet, whether the upload completes or
    raises on a category cell, the light of a department group is on
    exactly when it was on before or the group has a light and some row of
    the sheet has, in its first column, a department of that group.  A
    first-column cell that is not text (an empty cell, a number) belongs to
    no group and raises nothing. *)
Theorem upload_excel_lights_departments :
  (forall app d new_df key,
      lit key (lights_bool (self (after (upload_excel app d (Some new_df)))))
      = lit key (lights_bool app)
        || (existsb (fun r => match group_of (Department r) departments with
                              | Some k => String.eqb k key
                              | None => false
                              end) new_df
            && existsb (fun l => String.eqb (fst l) key) (lights_bool app)))
  /\ (forall dep, is_str dep = false -> group_of dep departments = None)
  /\ map (fun dep => group_of (VStr dep) departments)
         ["Deli"; "Bakery Instore"; "Bulk"; "Entertainment"; "deli"; "Dairy/Frozen"]
     = [Some "Meat"; Some "Bakery"; Some "Dairy/Frozen"; Some "Home"; None; None].
Proof.
  split; [|split; [|reflexivity]].
  - intros app d new_df key.
    rewrite upload_excel_lights, light_up_all_lit, existsb_column. reflexivity.
  - intros dep Hdep. destruct dep; try discriminate; reflexivity.
Qed.

Lemma upload_excel_lights_departments_witness :
  lit "Meat" (lights_bool (self (after
       (upload_excel init (Sample.dno []) (Some [More.deli; More.unknown]))))) = true
  /\ lit "Grocery" (lights_bool (self (after
       (upload_excel init (Sample.dno []) (Some [More.deli; More.unknown]))))) = false
  /\ group_of VNaN departments = None.
Proof.
  destruct upload_excel_lights_departments as (Hlit & Hnone & _).
  split; [|split].
  - rewrite Hlit. reflexivity.
  - rewrite Hlit. reflexivity.
  - apply Hnone. reflexivity.
Defined.

(** ** Identifiers that [int()] cannot read *)

Lemma numeric_identifier_literal (item : value) :
  Pd.isna item = false -> numeric item = true ->
  count_digits (identifier item) <= int_max_str_digits ->
  literal (identifier item) = true.
Proof.
  unfold literal. destruct item as [z|q|s|]; try discriminate; intros _ _.
  - change (identifier (VInt z)) with (str_of_int z). intros Hlen.
    rewrite int_literal_str_of_int.
    apply Z.leb_le in Hlen. now rewrite Hlen.
  - change (identifier (VFloat q)) with (str_of_int (int_of_float q)). intros Hlen.
    rewrite int_literal_str_of_int.
    apply Z.leb_le in Hlen. now rewrite Hlen.
Qed.

(** X11.  After a workbook import the DNO store can be read by
    [fetch_dno_articles] exactly when it could be read before and every
    non-empty cell of the first ten columns gives a text that [int()]
    accepts: an integer literal, with the white space and the limit of
    4300 digits of [int()].  A cell that is a number of at most 4300
    digits does. *)
Theorem import_dno_keeps_store_readable :
  (forall app d xls,
      readable (dno_db (files (after (import_dno app d (Workbook (inr xls))))))
      = readable (dno_db d)
        && forallb (fun item => literal (identifier item))
                   (flat_map Pd.first_ten_values xls))
  /\ (forall item, Pd.isna item = false -> numeric item = true ->
                   count_digits (identifier item) <= int_max_str_digits ->
                   literal (identifier item) = true).
Proof.
  split; [|exact numeric_identifier_literal].
  intros app d xls. unfold readable.
  destruct (import_dno_rows app d (Workbook (inr xls))) as (added & -> & _ & Hmem).
  rewrite forallb_app.
  destruct (forallb literal (Sqlite.rows (dno_db d))) eqn:Hold; cbn [andb]; [|reflexivity].
  apply eq_true_iff_eq. rewrite !forallb_forall. split.
  - intros H item Hitem.
    destruct (in_dec string_dec (identifier item) (Sqlite.rows (dno_db d))) as [Hin|Hno].
    + rewrite forallb_forall in Hold. now apply Hold.
    + apply H, Hmem. eauto.
  - intros H t Ht. apply Hmem in Ht as (_ & item & Hitem & <-). now apply H.
Qed.

Lemma import_dno_keeps_store_readable_witness :
  readable (dno_db (files (after
      (import_dno init (Sample.dno ["5"]) (Workbook (inr [[[VInt 123; VFloat (7 # 2)]]]))))))
  = true
  /\ readable (dno_db (files (after
         (import_dno init (Sample.dno ["5"]) (Workbook (inr Sample.workbook))))))
     = false
  /\ literal (identifier (VFloat (7 # 2))) = true.
Proof.
  destruct import_dno_keeps_store_readable as (Hread & Hnum).
  split; [|split].
  - rewrite Hread. reflexivity.
  - rewrite Hread. reflexivity.
  - apply Hnum; [reflexivity | reflexivity | vm_compute; discriminate].
Defined.

Lemma forallb_filter {A : Type} (p q : A -> bool) (l : list A) :
  forallb p l = true -> forallb p (filter q l) = true.
Proof.
  rewrite !forallb_forall. intros H x Hx. apply filter_In in Hx as [Hx _]. auto.
Qed.

(** X12.  An identifier that [int()] rejects, once added to a store that
    could be read, makes [find_zeros] raise [ValueError] on every inventory
    with rows and numeric counts; removing it again makes [find_zeros]
    complete again. *)
Theorem unreadable_identifier_blocks_find_zeros
        (app : FiltererApp) (d : disk) (entry : string) :
  String.eqb (strip entry) "" = false ->
  literal (strip entry) = false ->
  readable (dno_db d) = true ->
  Pd.empty (df_inventory app) = false ->
  forallb numeric (Pd.column Inventory (df_inventory app)) = true ->
  (exists msg w,
      find_zeros (self (after (add_new_DNO app d entry true)))
                 (files (after (add_new_DNO app d entry true)))
      = Raises (ValueError msg) w)
  /\ (exists w,
        find_zeros
          (self (after (remove_from_DNO
                          (self (after (add_new_DNO app d entry true)))
                          (files (after (add_new_DNO app d entry true))) entry true)))
          (files (after (remove_from_DNO
                           (self (after (add_new_DNO app d entry true)))
                           (files (after (add_new_DNO app d entry true))) entry true)))
        = Returns w).
Proof.
  intros Hentry Hlit Hread Hrows Hnum.
  pose proof (add_new_DNO_rows app d entry true) as Hadd.
  rewrite Hentry in Hadd. cbn [andb negb] in Hadd.
  destruct (add_new_DNO_keeps_tables app d entry true) as (Hdf & _ & _).
  assert (Habsent : stored (strip entry) (dno_db d) = false).
  { apply not_true_iff_false. intros H. apply stored_in in H.
    unfold readable in Hread. rewrite forallb_forall in Hread.
    rewrite (Hread _ H) in Hlit. discriminate. }
  rewrite Habsent in Hadd. split.
  - destruct (find_zeros_unreadable
                (self (after (add_new_DNO app d entry true)))
                (files (after (add_new_DNO app d entry true)))) as (msg & Hmsg).
    + now rewrite Hdf.
    + now rewrite Hdf.
    + unfold readable. rewrite Hadd, forallb_app. cbn. rewrite Hlit.
      now rewrite andb_false_r.
    + eauto.
  - pose proof (remove_from_DNO_rows
                  (self (after (add_new_DNO app d entry true)))
                  (files (after (add_new_DNO app d entry true))) entry true) as Hrem.
    rewrite Hentry in Hrem. cbn [andb negb] in Hrem.
    destruct (remove_from_DNO_keeps_tables
                (self (after (add_new_DNO app d entry true)))
                (files (after (add_new_DNO app d entry true))) entry true)
      as (Hdf' & _ & _).
    assert (Hread' : readable (dno_db (files (after (remove_from_DNO
                        (self (after (add_new_DNO app d entry true)))
                        (files (after (add_new_DNO app d entry true))) entry true))))
                     = true).
    { unfold readable. rewrite Hrem, Hadd, filter_app. cbn [filter].
      rewrite String.eqb_refl. cbn [negb]. rewrite app_nil_r.
      now apply forallb_filter. }
    destruct (readable_read _ Hread') as (dno_set & Hdno).
    rewrite (find_zeros_run _ _ dno_set); [eauto| | |exact Hdno].
    + now rewrite Hdf', Hdf.
    + now rewrite Hdf', Hdf.
Qed.

Lemma unreadable_identifier_blocks_find_zeros_witness :
  (exists msg w,
      find_zeros (self (after (add_new_DNO (Sample.loaded Sample.zero_stock)
                                           (Sample.dno ["1001"]) "A-17" true)))
                 (files (after (add_new_DNO (Sample.loaded Sample.zero_stock)
                                            (Sample.dno ["1001"]) "A-17" true)))
      = Raises (ValueError msg) w)
  /\ literal (strip "A-17") = false.
Proof.
  split; [|reflexivity].
  apply (proj1 (unreadable_identifier_blocks_find_zeros
                  (Sample.loaded Sample.zero_stock) (Sample.dno ["1001"]) "A-17"
                  eq_refl eq_refl eq_refl eq_refl eq_refl)).
Defined.


(** ** Which handler touches what *)

(** X14.  The handlers of the DNO store (import, export, add, remove)
    leave the inventory table, the zero and low sets and the lights as
    they are; the handlers of the inventory (upload and the two
    classifications) leave the identifiers in the store, the exported copy
    and the count of DNO changes as they are. *)
Theorem handlers_keep_to_their_data (act : action) (app : FiltererApp) (d : disk) :
  (on_dno_store act = true ->
   df_inventory (self (after (handle act app d))) = df_inventory app
   /\ filtered_zeros (self (after (handle act app d))) = filtered_zeros app
   /\ filtered_lows (self (after (handle act app d))) = filtered_lows app
   /\ lights_bool (self (after (handle act app d))) = lights_bool app)
  /\ (on_dno_store act = false ->
      Sqlite.rows (dno_db (files (after (handle act app d)))) = Sqlite.rows (dno_db d)
      /\ dst (files (after (handle act app d))) = dst d
      /\ new_found_dnos (self (after (handle act app d))) = new_found_dnos app).
Proof.
  split; intros Hact.
  - rewrite (dno_handlers_keep_lights act app d Hact).
    destruct act as [picked| |entry confirm|entry confirm|picked| |];
      try discriminate; cbn [handle].
    + destruct (import_dno_keeps_tables app d picked) as (-> & -> & ->). auto.
    + destruct (export_dno_keeps_tables app d) as (-> & -> & ->). auto.
    + destruct (add_new_DNO_keeps_tables app d entry confirm) as (-> & -> & ->). auto.
    + destruct (remove_from_DNO_keeps_tables app d entry confirm) as (-> & -> & ->). auto.
  - destruct act as [picked| |entry confirm|entry confirm|picked| |];
      try discriminate; cbn [handle].
    + destruct (upload_excel_files app d picked) as (-> & ->). auto.
    + destruct (find_zeros_rows app d) as (-> & -> & -> & _). auto.
    + destruct (find_lows_files app d) as (-> & -> & _). auto.
Qed.

Lemma handlers_keep_to_their_data_witness :
  filtered_zeros (self (after (handle (DoImport (DbFile (Sqlite.Table ["9"])))
                                      (with_zeros init [VInt 1005] 1) (Sample.dno ["1001"]))))
  = [VInt 1005]
  /\ Sqlite.rows (dno_db (files (after (handle DoFindZeros
                                          (Sample.loaded Sample.zero_stock)
                                          (Sample.dno ["1001"])))))
     = ["1001"].
Proof.
  split.
  - apply (proj1 (handlers_keep_to_their_data (DoImport (DbFile (Sqlite.Table ["9"])))
                    (with_zeros init [VInt 1005] 1) (Sample.dno ["1001"])) eq_refl).
  - apply (proj2 (handlers_keep_to_their_data DoFindZeros
                    (Sample.loaded Sample.zero_stock) (Sample.dno ["1001"])) eq_refl).
Defined.

(** ** The SAP replay *)

Lemma written_keystrokes (lines : list string) :
  written (flat_map keystrokes lines) = lines.
Proof.
  induction lines as [|line lines IH]; [reflexivity|].
  cbn [flat_map keystrokes app written]. now rewrite IH.
Qed.

Lemma length_keystrokes (lines : list string) :
  List.length (flat_map keystrokes lines) = (8 * List.length lines)%nat.
Proof.
  induction lines as [|line lines IH]; [reflexivity|].
  cbn [flat_map keystrokes]. rewrite length_app, IH. simpl. lia.
Qed.

Lemma lines_of_cons (text : string) (texts : list string) :
  flat_map keystrokes (lines_of (text :: texts))
  = (if String.eqb (strip text) "" then [] else keystrokes (strip text))
    ++ flat_map keystrokes (lines_of texts).
Proof.
  unfold lines_of. cbn [map filter].
  destruct (String.eqb (strip text) ""); reflexivity.
Qed.

(** The replay of texts, up to the first element that is not text. *)
Lemma process_lines_texts (texts : list string) :
  forall room rest,
    (List.length texts < room)%nat ->
    process_lines room (map VStr texts ++ rest)
    = (flat_map keystrokes (lines_of texts)
       ++ fst (process_lines (room - List.length texts) rest),
       snd (process_lines (room - List.length texts) rest)).
Proof.
  induction texts as [|text texts IH]; intros room rest Hroom.
  - cbn [map app List.length lines_of filter flat_map]. rewrite Nat.sub_0_r.
    now destruct (process_lines room rest).
  - destruct room as [|room]; [simpl in Hroom; lia|].
    cbn [map app process_lines strip_method].
    rewrite (IH room rest) by (simpl in Hroom; lia).
    rewrite lines_of_cons, <- app_assoc. reflexivity.
Qed.

Lemma process_lines_all_texts (room : nat) (texts : list string) :
  (List.length texts < room)%nat ->
  process_lines room (map VStr texts) = (flat_map keystrokes (lines_of texts), None).
Proof.
  intros Hroom. rewrite <- (app_nil_r (map VStr texts)).
  rewrite (process_lines_texts texts room [] Hroom).
  destruct (room - List.length texts)%nat eqn:Hleft; [lia|].
  cbn [process_lines fst snd]. now rewrite app_nil_r.
Qed.

(** X15.  With room for one nested call per element and one more,
    [process_lines] on a list of texts sends, for every text that is not
    blank and in the order of the list, two clicks at (222, 330), the
    stripped text, and two presses of enter, with the pauses between;
    blank texts send nothing; the replay ends without an exception. *)
Theorem process_lines_types_every_line (room : nat) (texts : list string) :
  (List.length texts < room)%nat ->
  process_lines room (map VStr texts) = (flat_map keystrokes (lines_of texts), None)
  /\ written (fst (process_lines room (map VStr texts))) = lines_of texts
  /\ List.length (fst (process_lines room (map VStr texts)))
     = (8 * List.length (lines_of texts))%nat.
Proof.
  intros Hroom. rewrite (process_lines_all_texts room texts Hroom). cbn [fst].
  split; [reflexivity|]. split; [apply written_keystrokes | apply length_keystrokes].
Qed.

Lemma process_lines_types_every_line_witness :
  process_lines 5 [VStr " 1002 "; VStr "  "; VStr "1004"]
  = (keystrokes "1002" ++ keystrokes "1004", None)
  /\ written (fst (process_lines 5 [VStr " 1002 "; VStr "  "; VStr "1004"]))
     = ["1002"; "1004"].
Proof.
  destruct (process_lines_types_every_line 5 [" 1002 "; "  "; "1004"])
    as (Hrun & Hwritten & _); [simpl; lia|].
  split; [exact Hrun | exact Hwritten].
Defined.

(** X16.  [process_lines] stops at the first element that is not text (a
    number, as the Article column of a numeric sheet gives them, or an
    empty cell): the texts before it are replayed, then [AttributeError]
    leaves the replay and nothing of the rest of the list is sent. *)
Theorem process_lines_stops_at_number
        (room : nat) (texts : list string) (x : value) (rest : list value) :
  (List.length texts < room)%nat ->
  is_str x = false ->
  process_lines room (map VStr texts ++ x :: rest)
  = (flat_map keystrokes (lines_of texts), Some (Uncaught AttributeError)).
Proof.
  intros Hroom Hx.
  rewrite (process_lines_texts texts room (x :: rest) Hroom).
  destruct (room - List.length texts)%nat eqn:Hleft; [lia|].
  cbn [process_lines].
  assert (Hstrip : strip_method x = inl AttributeError)
    by (destruct x; try reflexivity; discriminate).
  rewrite Hstrip. cbn [fst snd]. now rewrite app_nil_r.
Qed.

Lemma process_lines_stops_at_number_witness :
  process_lines 9 [VStr "1002"; VInt 1005; VStr "1004"]
  = (keystrokes "1002", Some (Uncaught AttributeError)).
Proof.
  apply (process_lines_stops_at_number 9 ["1002"] (VInt 1005) [VStr "1004"]);
    [simpl; lia | reflexivity].
Defined.

Lemma not_text_set_add (s : list value) (x : value) :
  forallb (fun v => negb (is_str v)) s = true -> is_str x = false ->
  forallb (fun v => negb (is_str v)) (set_add s x) = true.
Proof.
  intros Hs Hx. unfold set_add. destruct (contains s x); [exact Hs|].
  rewrite forallb_app, Hs. cbn. now rewrite Hx.
Qed.

Lemma not_text_add_all (xs : list value) :
  forall s,
    forallb (fun v => negb (is_str v)) s = true ->
    forallb (fun v => negb (is_str v)) xs = true ->
    forallb (fun v => negb (is_str v)) (fold_left set_add xs s) = true.
Proof.
  induction xs as [|x xs IH]; intros s Hs Hxs; [exact Hs|].
  cbn [forallb] in Hxs. apply andb_true_iff in Hxs as [Hx Hxs].
  cbn [fold_left]. apply IH; [|exact Hxs].
  apply not_text_set_add; [exact Hs | now apply negb_true_iff].
Qed.

Lemma not_text_filter_column (p : row -> bool) (df : Pd.frame) :
  forallb (fun v => negb (is_str v)) (Pd.column Article df) = true ->
  forallb (fun v => negb (is_str v)) (Pd.column Article (filter p df)) = true.
Proof.
  unfold Pd.column. rewrite !forallb_forall. intros H v Hv.
  apply in_map_iff in Hv as (r & <- & Hr). apply filter_In in Hr as [Hr _].
  apply H. now apply in_map.
Qed.

(** X17.  The zero set of a sheet whose Article column holds numbers
    cannot be sent: [find_zeros] and [find_lows] put the articles into the
    sets as the numbers they are, and on a set that is not empty and holds
    no text [send_to_SAP], once confirmed, pauses, sends no click and no
    key, shows no alert and is left by [AttributeError]. *)
Theorem send_to_SAP_cannot_type_numbers :
  (forall app d w,
      forallb (fun v => negb (is_str v)) (Pd.column Article (df_inventory app)) = true ->
      forallb (fun v => negb (is_str v)) (filtered_zeros app) = true ->
      find_zeros app d = Returns w ->
      forallb (fun v => negb (is_str v)) (filtered_zeros (self w)) = true)
  /\ (forall app d w,
        forallb (fun v => negb (is_str v)) (Pd.column Article (df_inventory app)) = true ->
        forallb (fun v => negb (is_str v)) (filtered_lows app) = true ->
        find_lows app d = Returns w ->
        forallb (fun v => negb (is_str v)) (filtered_lows (self w)) = true)
  /\ (forall app mode room listed,
        is_empty (if mode =? 1 then filtered_lows app else filtered_zeros app) = false ->
        forallb (fun v => negb (is_str v))
                (if mode =? 1 then filtered_lows app else filtered_zeros app) = true ->
        is_empty listed = false ->
        incl listed (if mode =? 1 then filtered_lows app else filtered_zeros app) ->
        send_to_SAP app mode true (S room) listed
        = Replay [Sleep (if mode =? 1 then 2000 else 3000)] []
                 (Some (Uncaught AttributeError))).
Proof.
  split; [|split].
  - intros app d w Hcol Hset Hrun.
    destruct (Pd.empty (df_inventory app)) eqn:Hrows.
    { unfold find_zeros in Hrun. rewrite Hrows in Hrun. now injection Hrun as <-. }
    destruct (forallb numeric (Pd.column Inventory (df_inventory app))) eqn:Hnum;
      [|rewrite (find_zeros_not_numeric _ _ Hrows Hnum) in Hrun; discriminate].
    destruct (readable (dno_db d)) eqn:Hread.
    + destruct (readable_read _ Hread) as (dno_set & Hdno).
      rewrite (find_zeros_run _ _ _ Hrows Hnum Hdno) in Hrun. injection Hrun as <-.
      cbn [self with_zeros filtered_zeros].
      apply not_text_add_all; [exact Hset | now apply not_text_filter_column].
    + destruct (find_zeros_unreadable _ _ Hrows Hnum Hread) as (msg & Hmsg).
      congruence.
  - intros app d w Hcol Hset Hrun.
    destruct (Pd.empty (df_inventory app)) eqn:Hrows.
    { unfold find_lows in Hrun. rewrite Hrows in Hrun. now injection Hrun as <-. }
    destruct (forallb numeric (Pd.column Inventory (df_inventory app))) eqn:Hnum;
      [|rewrite (find_lows_not_numeric _ _ Hrows Hnum) in Hrun; discriminate].
    rewrite (find_lows_run _ _ Hrows Hnum) in Hrun. injection Hrun as <-.
    cbn [self with_lows filtered_lows].
    apply not_text_add_all; [exact Hset | now apply not_text_filter_column].
  - intros app mode room listed Hset Hnot Hlisted Hincl.
    destruct listed as [|x rest]; [discriminate|].
    assert (Hx : is_str x = false).
    { rewrite forallb_forall in Hnot. apply negb_true_iff, Hnot, Hincl. now left. }
    assert (Hstop : process_lines (S room) (x :: rest)
                    = ([], Some (Uncaught AttributeError))).
    { cbn [process_lines]. destruct x; try reflexivity; discriminate. }
    unfold send_to_SAP. destruct (mode =? 1); rewrite Hset, Hstop; reflexivity.
Qed.

Lemma send_to_SAP_cannot_type_numbers_witness :
  exists w,
    find_zeros (Sample.loaded Sample.zero_stock) (Sample.dno ["1001"]) = Returns w
    /\ filtered_zeros (self w) = [VInt 1005]
    /\ send_to_SAP (self w) 0 true 900 [VInt 1005]
       = Replay [Sleep 3000] [] (Some (Uncaught AttributeError)).
Proof.
  eexists. split; [reflexivity|]. split; [reflexivity|].
  destruct send_to_SAP_cannot_type_numbers as (_ & _ & Hsend).
  apply (Hsend _ 0 899%nat [VInt 1005]); try reflexivity.
  intros v Hv. exact Hv.
Defined.



(** X19.  The replay calls itself once per element: on a list of texts
    with at least as many elements as there is room for nested calls,
    [process_lines] is stopped by Python's recursion limit; what it has
    typed by then are the lines of some first elements of the list, at
    most as many as there was room for, and [send_to_SAP] shows no
    "Done". *)
Theorem process_lines_runs_out_of_room (room : nat) (texts : list string) :
  (room <= List.length texts)%nat ->
  snd (process_lines room (map VStr texts)) = Some RecursionError
  /\ (exists k, (k <= room)%nat
                /\ written (fst (process_lines room (map VStr texts)))
                   = lines_of (firstn k texts))
  /\ (forall app mode,
        is_empty (if mode =? 1 then filtered_lows app else filtered_zeros app) = false ->
        told (send_to_SAP app mode true room (map VStr texts)) = []
        /\ stopped_by (send_to_SAP app mode true room (map VStr texts))
           = Some RecursionError).
Proof.
  assert (Hrun : forall n l, (n <= List.length l)%nat ->
             process_lines n (map VStr l)
             = (flat_map keystrokes (lines_of (firstn n l)), Some RecursionError)).
  { induction n as [|n IH]; intros l Hn; [reflexivity|].
    destruct l as [|text l]; [simpl in Hn; lia|].
    cbn [map process_lines strip_method firstn].
    rewrite (IH l) by (simpl in Hn; lia).
    now rewrite lines_of_cons. }
  intros Hroom. rewrite (Hrun room texts Hroom). cbn [fst snd].
  split; [reflexivity|]. split.
  - exists room. split; [lia | apply written_keystrokes].
  - intros app mode Hset. unfold send_to_SAP.
    destruct (mode =? 1); rewrite Hset, (Hrun room texts Hroom); split; reflexivity.
Qed.

Lemma process_lines_runs_out_of_room_witness :
  snd (process_lines 2 (map VStr ["1002"; "1003"; "1004"])) = Some RecursionError
  /\ stopped_by (send_to_SAP (with_zeros init [VStr "1002"; VStr "1003"; VStr "1004"] 3)
                             0 true 2 (map VStr ["1002"; "1003"; "1004"]))
     = Some RecursionError.
Proof.
  destruct (process_lines_runs_out_of_room 2 ["1002"; "1003"; "1004"]
              ltac:(simpl; lia)) as (Hstop & _ & Hsend).
  split; [exact Hstop|].
  apply (Hsend (with_zeros init [VStr "1002"; VStr "1003"; VStr "1004"] 3) 0).
  reflexivity.
Defined.

(** ** The exported copy *)




